(** * Distribution center package management: allocation and lifecycle engine

    A shallow embedding of [src/distribution_center.py]: the SQLite tables
    become lists of rows kept in insertion (rowid) order, every method of
    [PackageManager] becomes a function from a database to an outcome and
    a database, and the properties of the specification are proved on
    these functions.

    Conventions.
    - A Python [str] is a Rocq [string], read as the bytes of its UTF-8
      encoding.  [str.lower] only has to be right as far as the two
      comparisons of [categorize_package] and the one of
      [update_package_status] can see; those compare with ASCII words, and
      no non-ASCII character lowers to a run of ASCII letters that could
      complete one of them, so lowering the ASCII letters is enough.
    - A Python [float] is a binary64 number, the kernel's [float].
    - A SQLite INTEGER is a [Z]; a nullable column is an [option].
    - The columns filled by CURRENT_TIMESTAMP ([created_at], [received_at],
      [timestamp]) are left out: no operation reads them back. *)

From Stdlib Require Import ZArith List String Ascii Bool Lia Floats Sorted Permutation.
Import ListNotations.
Open Scope string_scope.
Open Scope Z_scope.

(** ** Python string operations used by the source *)

Module PyStr.

(** [c.lower()] on one character. *)
Definition lower_ascii (c : ascii) : ascii :=
  let n := nat_of_ascii c in
  if (65 <=? n)%nat && (n <=? 90)%nat then ascii_of_nat (n + 32) else c.

(** [s.lower()]. *)
Fixpoint lower (s : string) : string :=
  match s with
  | EmptyString => EmptyString
  | String c s' => String (lower_ascii c) (lower s')
  end.

(** [s.startswith(p)]. *)
Fixpoint startswith (p s : string) : bool :=
  match p, s with
  | EmptyString, _ => true
  | String _ _, EmptyString => false
  | String a p', String b s' => Ascii.eqb a b && startswith p' s'
  end.

(** [p in s]: [p] occurs in [s] as a substring. *)
Fixpoint contains (p s : string) : bool :=
  startswith p s ||
  match s with
  | EmptyString => false
  | String _ s' => contains p s'
  end.

(** [s.count(c)] for a one-character [c]. *)
Fixpoint count (c : ascii) (s : string) : Z :=
  match s with
  | EmptyString => 0
  | String a s' => (if Ascii.eqb a c then 1 else 0) + count c s'
  end.

(** [len(s.split(c))]: the number of [c]-separated components of [s]. *)
Definition components (c : ascii) (s : string) : Z := count c s + 1.

(** [str(n)] for a natural number below 100, and [f"{n:02d}"]. *)
Definition digit (n : nat) : ascii := ascii_of_nat (48 + n).

Definition fmt_02d (n : nat) : string :=
  String (digit (Nat.modulo (Nat.div n 10) 10)) (String (digit (Nat.modulo n 10)) EmptyString).

End PyStr.

(** ** Categorization rules ([PackageManager.categorize_package]) *)

Definition EXPRESS : Z * string := (2, "Express").
Definition INTERNATIONAL : Z * string := (5, "International").
Definition HEAVY : Z * string := (4, "Heavy").
Definition FRAGILE : Z * string := (3, "Fragile").
Definition STANDARD : Z * string := (1, "Standard").

Definition is_express (priority : string) : bool :=
  String.eqb (PyStr.lower priority) "express".

Definition is_international (destination : string) : bool :=
  PyStr.contains "international" (PyStr.lower destination)
  || (1 <? PyStr.count "," destination).

Definition categorize_package (weight : float) (priority destination : string)
  : Z * string :=
  if is_express priority then EXPRESS
  else if is_international destination then INTERNATIONAL
  else if PrimFloat.ltb 50.0 weight then HEAVY
  else if PrimFloat.ltb weight 5.0 then FRAGILE
  else STANDARD.

(** ** The four relations of [DistributionCenterDB.initialize_database] *)

Record Category := mkCategory {
  c_category_id : Z;            (* INTEGER PRIMARY KEY AUTOINCREMENT *)
  c_category_name : string;     (* UNIQUE NOT NULL *)
  c_description : string;
  c_zone : string;
  c_max_weight : float;
  c_priority_level : Z
}.

Record Location := mkLocation {
  l_location_id : Z;            (* INTEGER PRIMARY KEY AUTOINCREMENT *)
  l_location_code : string;     (* UNIQUE NOT NULL *)
  l_zone : string;
  l_aisle : Z;
  l_shelf : Z;
  l_category_id : Z;            (* REFERENCES Categories *)
  l_is_occupied : bool          (* DEFAULT 0 *)
}.

Record Package := mkPackage {
  p_package_id : Z;             (* INTEGER PRIMARY KEY AUTOINCREMENT *)
  p_barcode : string;           (* UNIQUE NOT NULL *)
  p_weight : float;             (* REAL NOT NULL *)
  p_length : float;
  p_width : float;
  p_height : float;
  p_destination : string;
  p_priority : string;
  p_category_id : Z;            (* NOT NULL REFERENCES Categories *)
  p_location_id : option Z;     (* nullable, REFERENCES Locations *)
  p_status : string
}.

Record AuditEntry := mkAuditEntry {
  a_audit_id : Z;               (* INTEGER PRIMARY KEY AUTOINCREMENT *)
  a_package_id : Z;             (* NOT NULL REFERENCES Packages *)
  a_action : string;
  a_old_status : option string;
  a_new_status : option string;
  a_old_location : option string;
  a_new_location : option string;
  a_notes : string
}.

(** A database: each table is the list of its rows in rowid order. *)
Record DB := mkDB {
  Categories : list Category;
  Locations : list Location;
  Packages : list Package;
  AuditTrail : list AuditEntry
}.

Definition empty_db : DB := mkDB [] [] [] [].

(** The rowid an AUTOINCREMENT key gives to the next row.  No row is ever
    deleted, so the largest rowid ever used is the largest one present. *)
Definition next_rowid {A : Type} (key : A -> Z) (rows : list A) : Z :=
  fold_right Z.max 0 (map key rows) + 1.

(** ** Seeding ([DistributionCenterDB._populate_initial_data]) *)

Definition categories_seed : list (string * string * string * float * Z) :=
  [ ("Standard", "Regular packages, standard delivery", "A", 30.0%float, 3);
    ("Express", "High priority, expedited delivery", "B", 25.0%float, 1);
    ("Fragile", "Handle with care, delicate items", "C", 20.0%float, 2);
    ("Heavy", "Heavy items requiring special handling", "D", 100.0%float, 4);
    ("International", "International shipments", "E", 50.0%float, 2) ].

(** INSERT OR IGNORE INTO Categories: a row whose name is taken is skipped. *)
Definition insert_category (db : DB) (row : string * string * string * float * Z) : DB :=
  let '(name, descr, zone, max_weight, level) := row in
  if existsb (fun c => String.eqb (c_category_name c) name) (Categories db) then db
  else
    mkDB (Categories db
            ++ [mkCategory (next_rowid c_category_id (Categories db))
                           name descr zone max_weight level])
         (Locations db) (Packages db) (AuditTrail db).

(** INSERT OR IGNORE INTO Locations: a row whose code is taken is skipped. *)
Definition insert_location (db : DB) (cat_id aisle shelf : nat) : DB :=
  let zone := String (ascii_of_nat (64 + cat_id)) EmptyString in
  let location_code :=
    zone ++ PyStr.fmt_02d aisle ++ "-" ++ PyStr.fmt_02d shelf in
  if existsb (fun l => String.eqb (l_location_code l) location_code) (Locations db) then db
  else
    mkDB (Categories db)
         (Locations db
            ++ [mkLocation (next_rowid l_location_id (Locations db))
                           location_code zone (Z.of_nat aisle) (Z.of_nat shelf)
                           (Z.of_nat cat_id) false])
         (Packages db) (AuditTrail db).

(** [for x in range(1, n + 1)] threading the database through the body. *)
Definition for_range (n : nat) (body : DB -> nat -> DB) (db : DB) : DB :=
  fold_left body (seq 1 n) db.

Definition populate_initial_data (db : DB) : DB :=
  let db := fold_left insert_category categories_seed db in
  for_range 5 (fun db cat_id =>
    for_range 5 (fun db aisle =>
      for_range 4 (fun db shelf => insert_location db cat_id aisle shelf) db) db) db.

(** The database of a first start: the schema is created empty and seeded. *)
Definition init_db : DB := Eval vm_compute in populate_initial_data empty_db.

(** ** Allocation ([PackageManager.find_available_location]) *)

Definition is_free_in (category_id : Z) (l : Location) : bool :=
  (l_category_id l =? category_id) && negb (l_is_occupied l).

(** SELECT location_id FROM Locations WHERE category_id = ? AND is_occupied = 0
    LIMIT 1: the table is scanned in rowid order. *)
Definition find_available_location (db : DB) (category_id : Z) : option Z :=
  option_map l_location_id (find (is_free_in category_id) (Locations db)).

(** ** Registration ([PackageManager.register_package]) *)

(** The way a call of [register_package] ends.  The source returns [True]
    for [Registered] and [False] after each of the three messages; the
    last case is an exception that the [except sqlite3.Error] clause would
    not catch. *)
Inductive register_outcome :=
| Registered             (* "Package registered successfully!", True *)
| DuplicateBarcode       (* "Barcode ... already exists", False *)
| NoAvailableLocation    (* "No available locations for category ...", False *)
| DatabaseError          (* sqlite3.Error: rolled back, False *)
| UncaughtTypeError.     (* [fetchone()[0]] on no row *)

Definition register_returns (o : register_outcome) : bool :=
  match o with Registered => true | _ => false end.

Definition barcode_exists (db : DB) (barcode : string) : bool :=
  existsb (fun p => String.eqb (p_barcode p) barcode) (Packages db).

(** The constraints SQLite checks on INSERT INTO Packages.  A NaN is bound
    as NULL, which the NOT NULL columns refuse; the two foreign keys are
    enforced (PRAGMA foreign_keys = ON); the barcode is UNIQUE. *)
Definition packages_insert_ok (db : DB) (row : Package) : bool :=
  negb (PrimFloat.is_nan (p_weight row)) && negb (PrimFloat.is_nan (p_length row))
  && negb (PrimFloat.is_nan (p_width row)) && negb (PrimFloat.is_nan (p_height row))
  && negb (barcode_exists db (p_barcode row))
  && existsb (fun c => c_category_id c =? p_category_id row) (Categories db)
  && match p_location_id row with
     | Some l => existsb (fun loc => l_location_id loc =? l) (Locations db)
     | None => true
     end.

(** The location row with the flag replaced. *)
Definition with_occupied (flag : bool) (l : Location) : Location :=
  mkLocation (l_location_id l) (l_location_code l) (l_zone l) (l_aisle l)
             (l_shelf l) (l_category_id l) flag.

(** UPDATE Locations SET is_occupied = ? WHERE location_id = ? *)
Definition set_occupied (flag : bool) (location_id : Z) (locs : list Location)
  : list Location :=
  map (fun l => if l_location_id l =? location_id then with_occupied flag l else l) locs.

(** SELECT location_code FROM Locations WHERE location_id = ? *)
Definition location_code_of (db : DB) (location_id : Z) : option string :=
  option_map l_location_code
             (find (fun l => l_location_id l =? location_id) (Locations db)).

Definition register_package (db : DB) (barcode : string)
           (weight length width height : float) (destination priority : string)
  : register_outcome * DB :=
  if barcode_exists db barcode then (DuplicateBarcode, db)
  else
    let '(category_id, category_name) := categorize_package weight priority destination in
    match find_available_location db category_id with
    | None => (NoAvailableLocation, db)
    | Some location_id =>
      if location_id =? 0 then (NoAvailableLocation, db)   (* [not location_id] *)
      else
        let package_id := next_rowid p_package_id (Packages db) in
        let row := mkPackage package_id barcode weight length width height
                             destination priority category_id (Some location_id)
                             "Stored" in
        if negb (packages_insert_ok db row) then (DatabaseError, db)
        else
          let packages := (Packages db ++ [row])%list in
          let locations := set_occupied true location_id (Locations db) in
          match location_code_of (mkDB (Categories db) locations packages (AuditTrail db))
                                 location_id with
          | None => (UncaughtTypeError, db)
          | Some location_code =>
            let entry :=
              mkAuditEntry (next_rowid a_audit_id (AuditTrail db)) package_id
                           "REGISTERED" None (Some "Stored") None (Some location_code)
                           ("Package categorized as " ++ category_name) in
            (Registered, mkDB (Categories db) locations packages (AuditTrail db ++ [entry]))
          end
    end.

(** ** Search ([PackageManager.search_package]) *)

(** The keys of the dictionary that the rest of the engine reads. *)
Record PackageView := mkPackageView {
  v_package_id : Z;
  v_barcode : string;
  v_status : string;
  v_category : string;
  v_location : option string   (* LEFT JOIN: None once no location matches *)
}.

(** One row of Packages JOIN Categories LEFT JOIN Locations: the inner
    join drops a package whose category is missing, the left join keeps
    one whose location is. *)
Definition joined (db : DB) (p : Package) : option PackageView :=
  match find (fun c => c_category_id c =? p_category_id p) (Categories db) with
  | None => None
  | Some c =>
    Some (mkPackageView (p_package_id p) (p_barcode p) (p_status p) (c_category_name c)
            match p_location_id p with
            | Some l => location_code_of db l
            | None => None
            end)
  end.

(** [fetchone()] on the join WHERE barcode = ?. *)
Fixpoint first_row (db : DB) (barcode : string) (ps : list Package)
  : option PackageView :=
  match ps with
  | [] => None
  | p :: ps' =>
    if String.eqb (p_barcode p) barcode
    then match joined db p with Some v => Some v | None => first_row db barcode ps' end
    else first_row db barcode ps'
  end.

Definition search_package (db : DB) (barcode : string) : option PackageView :=
  first_row db barcode (Packages db).

(** ** Status update ([PackageManager.update_package_status]) *)

Inductive update_outcome :=
| Updated              (* "Package status updated", True *)
| PackageNotFound.     (* "Package ... not found!", False *)

Definition update_returns (o : update_outcome) : bool :=
  match o with Updated => true | PackageNotFound => false end.

(** The package with the status column replaced. *)
Definition with_status (s : string) (p : Package) : Package :=
  mkPackage (p_package_id p) (p_barcode p) (p_weight p) (p_length p)
            (p_width p) (p_height p) (p_destination p) (p_priority p)
            (p_category_id p) (p_location_id p) s.

(** UPDATE Packages SET status = ? WHERE barcode = ? *)
Definition set_status (new_status barcode : string) (ps : list Package) : list Package :=
  map (fun p => if String.eqb (p_barcode p) barcode then with_status new_status p else p)
      ps.

Definition is_delivered (status : string) : bool :=
  String.eqb (PyStr.lower status) "delivered".

(** UPDATE Locations SET is_occupied = 0 WHERE location_id =
    (SELECT location_id FROM Packages WHERE barcode = ?): the scalar
    subquery is the first matching row's value; on NULL no row compares
    equal. *)
Definition release_location (barcode : string) (ps : list Package)
           (locs : list Location) : list Location :=
  match find (fun p => String.eqb (p_barcode p) barcode) ps with
  | Some p =>
    match p_location_id p with
    | Some l => set_occupied false l locs
    | None => locs
    end
  | None => locs
  end.

Definition update_package_status (db : DB) (barcode new_status : string)
  : update_outcome * DB :=
  match search_package db barcode with
  | None => (PackageNotFound, db)
  | Some package =>
    let old_status := v_status package in
    let packages := set_status new_status barcode (Packages db) in
    let locations :=
      if is_delivered new_status
      then release_location barcode packages (Locations db)
      else Locations db in
    let entry :=
      mkAuditEntry (next_rowid a_audit_id (AuditTrail db)) (v_package_id package)
                   "STATUS_UPDATE" (Some old_status) (Some new_status) None None
                   ("Status changed from " ++ old_status ++ " to " ++ new_status) in
    (Updated, mkDB (Categories db) locations packages (AuditTrail db ++ [entry]))
  end.

(** ** Runs of the engine *)

Inductive operation :=
| Register (barcode : string) (weight length width height : float)
           (destination priority : string)
| UpdateStatus (barcode new_status : string).

Definition step (db : DB) (op : operation) : DB :=
  match op with
  | Register b w l wd h d p => snd (register_package db b w l wd h d p)
  | UpdateStatus b s => snd (update_package_status db b s)
  end.

Definition run (ops : list operation) (db : DB) : DB := fold_left step ops db.

(** The states the engine can be in: the seeded database, then any
    sequence of [register_package] and [update_package_status] calls. *)
Inductive reachable : DB -> Prop :=
| reach_init : reachable init_db
| reach_step : forall db op, reachable db -> reachable (step db op).

(** Delivered is meant to be the last status of a package.  The engine does
    not enforce it; a run respects it when no call of
    [update_package_status] names a package that is already delivered. *)
Definition respects_terminal (db : DB) (op : operation) : bool :=
  match op with
  | Register _ _ _ _ _ _ _ => true
  | UpdateStatus b _ =>
    negb (existsb (fun p => String.eqb (p_barcode p) b && is_delivered (p_status p))
                  (Packages db))
  end.

Inductive reachable_terminal : DB -> Prop :=
| reach_terminal_init : reachable_terminal init_db
| reach_terminal_step : forall db op,
    reachable_terminal db -> respects_terminal db op = true ->
    reachable_terminal (step db op).

(** ** Observations on a database *)

(** The row of Locations with a given id. *)
Definition location_of (db : DB) (location_id : Z) : option Location :=
  find (fun l => l_location_id l =? location_id) (Locations db).

(** The package's location lies in zone [z]. *)
Definition stored_in_zone (db : DB) (z : string) (p : Package) : bool :=
  match p_location_id p with
  | Some l =>
    match location_of db l with
    | Some loc => String.eqb (l_zone loc) z
    | None => false
    end
  | None => false
  end.

(** count(occupied = true locations in zone z) *)
Definition occupied_in_zone (db : DB) (z : string) : nat :=
  List.length (filter (fun l => l_is_occupied l && String.eqb (l_zone l) z) (Locations db)).

(** The package still holds its place: its status is not "delivered". *)
Definition holds_place (p : Package) : bool := negb (is_delivered (p_status p)).

(** count(packages with status != Delivered whose location is in zone z) *)
Definition undelivered_in_zone (db : DB) (z : string) : nat :=
  List.length (filter (fun p => holds_place p && stored_in_zone db z p) (Packages db)).

(** Every location bound to the category is occupied. *)
Definition pool_exhausted (db : DB) (category_id : Z) : bool :=
  forallb (fun l => negb (is_free_in category_id l)) (Locations db).

(** A location row with its occupancy flag cleared: what never changes. *)
Definition loc_static (l : Location) : Location :=
  mkLocation (l_location_id l) (l_location_code l) (l_zone l) (l_aisle l)
             (l_shelf l) (l_category_id l) false.

(** What holds of every reachable database: the reference data is the
    seed, barcodes are unique, and every package points to a location of
    its own category. *)
Record wf (db : DB) : Prop := mkWf {
  wf_categories : Categories db = Categories init_db;
  wf_locations : map loc_static (Locations db) = Locations init_db;
  wf_barcodes : NoDup (map p_barcode (Packages db));
  wf_packages : forall p, In p (Packages db) ->
      In (p_category_id p) [1; 2; 3; 4; 5] /\
      exists loc, In loc (Locations init_db) /\ p_location_id p = Some (l_location_id loc)
                  /\ l_category_id loc = p_category_id p
}.

(** The row that a successful registration inserts. *)
Definition new_package (db : DB) (barcode : string)
           (weight length width height : float) (destination priority : string)
           (location_id : Z) : Package :=
  mkPackage (next_rowid p_package_id (Packages db)) barcode weight length width height
            destination priority (fst (categorize_package weight priority destination))
            (Some location_id) "Stored".

(** ** Sample runs *)

(** A 10 kg domestic package of standard priority: category Standard. *)
Definition register_standard (barcode : string) : operation :=
  Register barcode 10.0 30.0 20.0 15.0 "Boston, USA" "Standard".

(** Twenty registrations, "P01" to "P20", fill the pool of Standard. *)
Definition standard_full_db : DB :=
  run (map (fun n => register_standard ("P" ++ PyStr.fmt_02d n)) (seq 1 20)) init_db.

(** The scenario of the specification: one heavy package, registered. *)
Definition register_heavy : operation :=
  Register "000000000001" 60.0 60.0 50.0 40.0 "Houston, USA" "Standard".

Definition heavy_stored_db : DB := run [register_heavy] init_db.

(** The same package, delivered. *)
Definition heavy_delivered_db : DB :=
  run [register_heavy; UpdateStatus "000000000001" "Delivered"] init_db.

(** The row of the heavy package once registered. *)
Definition heavy_package : Package :=
  mkPackage 1 "000000000001" 60.0 60.0 50.0 40.0 "Houston, USA" "Standard" 4 (Some 61)
            "Stored".

(** A delivered package is stored again after its place was given away. *)
Definition shared_location_db : DB :=
  run [register_standard "A"; UpdateStatus "A" "Delivered";
       register_standard "B"; UpdateStatus "A" "Stored"] init_db.

(** A delivered package is stored again. *)
Definition reopened_db : DB :=
  run [register_standard "A"; UpdateStatus "A" "Delivered"; UpdateStatus "A" "Stored"]
      init_db.

(** A run in which Delivered is terminal: "A" is delivered, its place goes
    to "C", and "B" moves on. *)
Definition terminal_ops : list operation :=
  [register_standard "A"; register_standard "B"; UpdateStatus "A" "Delivered";
   register_standard "C"; UpdateStatus "B" "InTransit"].

Definition terminal_db : DB := run terminal_ops init_db.

(** Every step of the run respects that Delivered is terminal. *)
Fixpoint run_respects_terminal (ops : list operation) (db : DB) : bool :=
  match ops with
  | [] => true
  | op :: ops' => respects_terminal db op && run_respects_terminal ops' (step db op)
  end.

(** ** Auxiliary inputs *)

Definition is_register (op : operation) : bool :=
  match op with Register _ _ _ _ _ _ _ => true | UpdateStatus _ _ => false end.

(** Attributes (weight, priority, destination) that each category accepts. *)
Definition attributes_for (category_id : Z) : float * string * string :=
  if category_id =? 2 then (10.0%float, "Express", "Boston, USA")
  else if category_id =? 5 then (10.0%float, "Standard", "Lyon, France, International")
  else if category_id =? 4 then (60.0%float, "Standard", "Boston, USA")
  else if category_id =? 3 then (2.5%float, "Standard", "Boston, USA")
  else (10.0%float, "Standard", "Boston, USA").

(** A registration, with a given barcode, that falls in the category. *)
Definition register_in (category_id : Z) (barcode : string) : operation :=
  let '(w, p, d) := attributes_for category_id in
  Register barcode w 30.0 20.0 15.0 d p.

(** A barcode longer than every stored one, hence new. *)
Definition fresh_barcode (ps : list Package) : string :=
  fold_right (fun p acc => p_barcode p ++ acc) "0" ps.

(** What holds as long as Delivered is the last status of a package: the
    packages that hold a place are on occupied locations, no two of them
    on the same one, and the zones count as many of them as occupied
    locations. *)
Record conserved (db : DB) : Prop := mkConserved {
  cs_wf : wf db;
  cs_occupied : forall p loc,
      In p (Packages db) -> holds_place p = true ->
      In loc (Locations db) -> p_location_id p = Some (l_location_id loc) ->
      l_is_occupied loc = true;
  cs_distinct : forall p q,
      In p (Packages db) -> In q (Packages db) ->
      holds_place p = true -> holds_place q = true ->
      p_location_id p = p_location_id q -> p = q;
  cs_count : forall z, occupied_in_zone db z = undelivered_in_zone db z
}.

(** ** Summary report ([PackageManager.get_summary_report]) *)

(** COUNT(p.package_id) of the packages that the LEFT JOIN gives one
    category row. *)
Definition packages_of_category (db : DB) (c : Category) : nat :=
  List.length (filter (fun p => p_category_id p =? c_category_id c) (Packages db)).

(** ORDER BY count DESC.  SQL leaves the order of rows of equal count open;
    here they stay in the order of the input. *)
Fixpoint insert_by_count (row : string * nat) (rows : list (string * nat))
  : list (string * nat) :=
  match rows with
  | [] => [row]
  | r :: rs =>
    if (snd r <=? snd row)%nat then row :: r :: rs else r :: insert_by_count row rs
  end.

Definition order_by_count_desc (rows : list (string * nat)) : list (string * nat) :=
  fold_right insert_by_count [] rows.

(** SELECT c.category_name, COUNT(p.package_id) FROM Categories c LEFT JOIN
    Packages p ... GROUP BY c.category_id, c.category_name ORDER BY count DESC *)
Definition by_category (db : DB) : list (string * nat) :=
  order_by_count_desc
    (map (fun c => (c_category_name c, packages_of_category db c)) (Categories db)).

Definition packages_with_status (db : DB) (s : string) : nat :=
  List.length (filter (fun p => String.eqb (p_status p) s) (Packages db)).

(** SELECT status, COUNT( * ) FROM Packages GROUP BY status: one row for each
    status that occurs (the order of the groups is left open by SQL). *)
Definition by_status (db : DB) : list (string * nat) :=
  map (fun s => (s, packages_with_status db s))
      (nodup string_dec (map p_status (Packages db))).

(** COUNT( * ) of the locations of one zone. *)
Definition locations_in_zone (db : DB) (z : string) : nat :=
  List.length (filter (fun l => String.eqb (l_zone l) z) (Locations db)).

(** SELECT zone, COUNT( * ), SUM(CASE WHEN is_occupied = 1 THEN 1 ELSE 0 END), ...
    FROM Locations GROUP BY zone.  The fourth column, the rate rounded by
    SQLite to two decimals, is left out. *)
Definition location_occupancy (db : DB) : list (string * nat * nat) :=
  map (fun z => (z, locations_in_zone db z, occupied_in_zone db z))
      (nodup string_dec (map l_zone (Locations db))).

(** The report, without 'recent_activities', whose order is that of the
    timestamps. *)
Record Report := mkReport {
  r_by_category : list (string * nat);
  r_by_status : list (string * nat);
  r_location_occupancy : list (string * nat * nat)
}.

Definition get_summary_report (db : DB) : Report :=
  mkReport (by_category db) (by_status db) (location_occupancy db).

(** ** Further observations *)

(** [f"{zone}{aisle:02d}-{shelf:02d}"] with [zone = chr(64 + cat_id)]. *)
Definition location_code_for (cat_id aisle shelf : nat) : string :=
  String (ascii_of_nat (64 + cat_id)) EmptyString
  ++ PyStr.fmt_02d aisle ++ "-" ++ PyStr.fmt_02d shelf.

(** The barcode an operation is about. *)
Definition op_barcode (op : operation) : string :=
  match op with
  | Register b _ _ _ _ _ _ => b
  | UpdateStatus b _ => b
  end.

(** The view with the status replaced. *)
Definition view_with_status (s : string) (v : PackageView) : PackageView :=
  mkPackageView (v_package_id v) (v_barcode v) s (v_category v) (v_location v).

(** No dimension is a NaN. *)
Definition nan_free (weight length width height : float) : bool :=
  negb (PrimFloat.is_nan weight) && negb (PrimFloat.is_nan length)
  && negb (PrimFloat.is_nan width) && negb (PrimFloat.is_nan height).

(** The sum of the counts of a report column. *)
Definition total_count (rows : list (string * nat)) : nat :=
  fold_right (fun r acc => (snd r + acc)%nat) 0%nat rows.

(** The keys of a database are in order: the package ids and the audit ids
    count from 1 without a gap, and every audit entry is about a package
    that is there. *)
Record keys_ok (db : DB) : Prop := mkKeysOk {
  ko_packages :
    map p_package_id (Packages db) = map Z.of_nat (seq 1 (List.length (Packages db)));
  ko_audit :
    map a_audit_id (AuditTrail db) = map Z.of_nat (seq 1 (List.length (AuditTrail db)));
  ko_audit_package :
    forall e, In e (AuditTrail db) ->
              exists p, In p (Packages db) /\ p_package_id p = a_package_id e
}.

(** The first row counts at least as much as the second. *)
Definition count_ge (r1 r2 : string * nat) : Prop := (snd r2 <= snd r1)%nat.

(** * Properties *)

Open Scope list_scope.

Example categorize_samples :
  map (fun '(w, d, p) => snd (categorize_package w p d))
      [ (25.0, "New York, USA", "Express");
        (5.0, "Los Angeles, USA", "Standard");
        (2.5, "Chicago, USA", "Standard");
        (75.0, "Houston, USA", "Standard");
        (15.0, "London, UK, International", "Standard");
        (3.0, "Miami, USA", "Express");
        (100.0, "Seattle, USA", "Standard") ]%float
  = ["Express"; "Standard"; "Fragile"; "Heavy"; "International"; "Express"; "Heavy"].
Proof. reflexivity. Qed.

(** ** Categorization *)

Lemma categorize_package_in_seed w p d :
  In (fst (categorize_package w p d)) [1; 2; 3; 4; 5].
Proof.
  unfold categorize_package.
  destruct (is_express p); [simpl; tauto|].
  destruct (is_international d); [simpl; tauto|].
  destruct (PrimFloat.ltb 50 w); [simpl; tauto|].
  destruct (PrimFloat.ltb w 5); simpl; tauto.
Qed.

(** C1.  The rules of [categorize_package] are tried in order and the first
    that applies decides: express priority, then international
    destination, then weight above 50.0, then weight below 5.0, then
    Standard.  The result depends on the three arguments only, and a
    60.0 kg package of priority "Express" is Express whatever its
    destination. *)
Theorem categorize_package_rule_order :
  forall (w : float) (p d : string),
    (is_express p = true -> categorize_package w p d = EXPRESS) /\
    (is_express p = false -> is_international d = true ->
     categorize_package w p d = INTERNATIONAL) /\
    (is_express p = false -> is_international d = false ->
     PrimFloat.ltb 50.0 w = true -> categorize_package w p d = HEAVY) /\
    (is_express p = false -> is_international d = false ->
     PrimFloat.ltb 50.0 w = false -> PrimFloat.ltb w 5.0 = true ->
     categorize_package w p d = FRAGILE) /\
    (is_express p = false -> is_international d = false ->
     PrimFloat.ltb 50.0 w = false -> PrimFloat.ltb w 5.0 = false ->
     categorize_package w p d = STANDARD) /\
    categorize_package 60.0 "Express" d = EXPRESS.
Proof.
  intros w p d. unfold categorize_package.
  repeat split; intros; repeat match goal with H : _ = _ |- _ => rewrite H end; reflexivity.
Qed.

Lemma categorize_package_rule_order_witness :
  categorize_package 60.0 "EXPRESS" "Boston, USA" = EXPRESS
  /\ categorize_package 60.0 "Standard" "London, UK, International" = INTERNATIONAL
  /\ categorize_package 60.0 "Standard" "Boston, USA" = HEAVY
  /\ categorize_package 2.5 "Standard" "Boston, USA" = FRAGILE
  /\ categorize_package PrimFloat.nan "Standard" "Boston, USA" = STANDARD.
Proof.
  split; [apply (categorize_package_rule_order 60.0 "EXPRESS" "Boston, USA"); reflexivity|].
  split; [apply (categorize_package_rule_order 60.0 "Standard" "London, UK, International");
          reflexivity|].
  split; [apply (categorize_package_rule_order 60.0 "Standard" "Boston, USA"); reflexivity|].
  split; [apply (categorize_package_rule_order 2.5 "Standard" "Boston, USA"); reflexivity|].
  apply (categorize_package_rule_order PrimFloat.nan "Standard" "Boston, USA"); reflexivity.
Defined.

Lemma is_international_spec d :
  is_international d = true <->
  PyStr.contains "international" (PyStr.lower d) = true \/ 1 < PyStr.count "," d.
Proof.
  unfold is_international. rewrite orb_true_iff, Z.ltb_lt. tauto.
Qed.

Lemma categorize_package_international w p d :
  is_express p = false ->
  (categorize_package w p d = INTERNATIONAL <-> is_international d = true).
Proof.
  intros Hp. unfold categorize_package. rewrite Hp.
  destruct (is_international d); [tauto|].
  destruct (PrimFloat.ltb 50 w); [split; discriminate|].
  destruct (PrimFloat.ltb w 5); split; discriminate.
Qed.

(** C2, as stated, fails: "Boston, USA" has two comma-separated components
    and is not international. *)
Lemma two_components_not_international :
  ~ (forall (w : float) (p d : string),
        is_express p = false ->
        (categorize_package w p d = INTERNATIONAL <->
         PyStr.contains "international" (PyStr.lower d) = true
         \/ 1 < PyStr.components "," d)).
Proof.
  intros H.
  specialize (H 10.0%float "Standard" "Boston, USA" eq_refl).
  destruct H as [_ H]. discriminate H. right. reflexivity.
Qed.

(** C2, amended.  When the priority is not express, the category is
    International exactly when the destination contains "international"
    (whatever the case) or contains more than one comma, that is, has
    more than two comma-separated components. *)
Theorem categorize_package_international_iff :
  forall (w : float) (p d : string),
    is_express p = false ->
    (categorize_package w p d = INTERNATIONAL <->
     PyStr.contains "international" (PyStr.lower d) = true
     \/ 2 < PyStr.components "," d).
Proof.
  intros w p d Hp.
  rewrite (categorize_package_international w p d Hp), is_international_spec.
  unfold PyStr.components. split; (intros [H|H]; [left; exact H | right; lia]).
Qed.

Lemma categorize_package_international_iff_witness :
  is_express "Standard" = false /\
  (categorize_package 15.0 "Standard" "London, UK, Europe" = INTERNATIONAL <->
   PyStr.contains "international" (PyStr.lower "London, UK, Europe") = true
   \/ 2 < PyStr.components "," "London, UK, Europe").
Proof.
  split; [reflexivity|].
  apply (categorize_package_international_iff 15.0 "Standard" "London, UK, Europe").
  reflexivity.
Defined.

(** ** Rows and updates *)

Lemma set_occupied_map flag l locs :
  set_occupied flag l locs =
  map (fun loc => if l_location_id loc =? l then with_occupied flag loc else loc) locs.
Proof. reflexivity. Qed.

Lemma loc_static_set_occupied flag l locs :
  map loc_static (set_occupied flag l locs) = map loc_static locs.
Proof.
  unfold set_occupied. rewrite map_map. apply map_ext.
  intros loc. destruct (l_location_id loc =? l); reflexivity.
Qed.

Lemma loc_static_id locs :
  map l_location_id (map loc_static locs) = map l_location_id locs.
Proof. rewrite map_map. reflexivity. Qed.

Lemma set_status_map s b ps :
  set_status s b ps =
  map (fun p => if String.eqb (p_barcode p) b then with_status s p else p) ps.
Proof. reflexivity. Qed.

Lemma set_status_barcodes s b ps :
  map p_barcode (set_status s b ps) = map p_barcode ps.
Proof.
  unfold set_status. rewrite map_map. apply map_ext.
  intros p. destruct (String.eqb (p_barcode p) b); reflexivity.
Qed.

Lemma barcode_exists_iff db b :
  barcode_exists db b = true <-> exists p, In p (Packages db) /\ p_barcode p = b.
Proof.
  unfold barcode_exists. rewrite existsb_exists.
  split; intros [p [Hin Hb]]; exists p; split; auto; apply String.eqb_eq; exact Hb.
Qed.

Lemma barcode_exists_false db b :
  barcode_exists db b = false <-> ~ In b (map p_barcode (Packages db)).
Proof.
  rewrite <- not_true_iff_false, barcode_exists_iff, in_map_iff.
  split; intros H [p Hp]; apply H; exists p; tauto.
Qed.

(** ** The ways [register_package] ends *)

Lemma register_package_unfold db b w le wd h d p :
  register_package db b w le wd h d p =
  if barcode_exists db b then (DuplicateBarcode, db)
  else
    match find_available_location db (fst (categorize_package w p d)) with
    | None => (NoAvailableLocation, db)
    | Some l =>
      if l =? 0 then (NoAvailableLocation, db)
      else if negb (packages_insert_ok db (new_package db b w le wd h d p l))
      then (DatabaseError, db)
      else
        match location_code_of
                (mkDB (Categories db) (set_occupied true l (Locations db))
                      (Packages db ++ [new_package db b w le wd h d p l]) (AuditTrail db)) l with
        | None => (UncaughtTypeError, db)
        | Some code =>
          (Registered,
           mkDB (Categories db) (set_occupied true l (Locations db))
                (Packages db ++ [new_package db b w le wd h d p l])
                (AuditTrail db ++
                   [mkAuditEntry (next_rowid a_audit_id (AuditTrail db))
                                 (next_rowid p_package_id (Packages db))
                                 "REGISTERED" None (Some "Stored") None (Some code)
                                 ("Package categorized as "
                                    ++ snd (categorize_package w p d))%string]))
        end
    end.
Proof.
  unfold register_package, new_package.
  destruct (categorize_package w p d) as [c n]. reflexivity.
Qed.

(** One goal for each way out of [register_package], in the order of the
    source: duplicate barcode, no location ([None], then [0]), refused
    insertion, success, no row for the location code. *)
Ltac register_outcomes l Hf :=
  rewrite register_package_unfold;
  destruct (barcode_exists _ _) eqn:?;
  [|destruct (find_available_location _ _) as [l|] eqn:Hf;
    [destruct (l =? 0) eqn:?;
     [|destruct (negb (packages_insert_ok _ _)) eqn:?;
       [|destruct (location_code_of _ l) eqn:?]]|]].

(** Whatever is not a success leaves the database as it was. *)
Lemma register_package_failure db b w le wd h d p :
  fst (register_package db b w le wd h d p) <> Registered ->
  snd (register_package db b w le wd h d p) = db.
Proof. register_outcomes l Hf; simpl; congruence. Qed.

Lemma find_available_location_Some db c l :
  find_available_location db c = Some l <->
  exists loc, find (is_free_in c) (Locations db) = Some loc /\ l_location_id loc = l.
Proof.
  unfold find_available_location.
  destruct (find (is_free_in c) (Locations db)) as [loc|]; simpl.
  - split.
    + intros H. injection H as H. exists loc. auto.
    + intros [loc' [H1 H2]]. injection H1 as H1. subst. reflexivity.
  - split; [discriminate|]. intros [loc' [H1 _]]. discriminate.
Qed.

Lemma find_by_id_In locs loc :
  In loc locs ->
  exists loc', find (fun x => l_location_id x =? l_location_id loc) locs = Some loc'
               /\ In loc' locs /\ l_location_id loc' = l_location_id loc.
Proof.
  induction locs as [|x xs IH]; intros Hin; [destruct Hin|].
  simpl. destruct (l_location_id x =? l_location_id loc) eqn:E.
  - exists x. split; [reflexivity|]. split; [left; reflexivity|]. apply Z.eqb_eq, E.
  - destruct Hin as [->|Hin]; [rewrite Z.eqb_refl in E; discriminate|].
    destruct (IH Hin) as [loc' [H1 [H2 H3]]]. exists loc'. auto.
Qed.

(** The row read back for the location code always exists: the id was read
    from the same table. *)
Lemma location_code_of_found db c l pk au :
  find_available_location db c = Some l ->
  exists code,
    location_code_of (mkDB (Categories db) (set_occupied true l (Locations db)) pk au) l
    = Some code.
Proof.
  intros H. apply find_available_location_Some in H. destruct H as [loc [Hf Hid]].
  apply find_some in Hf. destruct Hf as [Hin _].
  assert (Hin' : In (with_occupied true loc) (set_occupied true l (Locations db))).
  { rewrite set_occupied_map. apply in_map_iff. exists loc. split; [|exact Hin].
    rewrite Hid, Z.eqb_refl. reflexivity. }
  destruct (find_by_id_In _ _ Hin') as [loc' [Hf' _]].
  unfold location_code_of. simpl. simpl in Hf'. rewrite Hid in Hf'.
  rewrite Hf'. simpl. eauto.
Qed.

(** [register_package] never leaves through an exception it does not catch. *)
Lemma register_package_no_type_error db b w le wd h d p :
  fst (register_package db b w le wd h d p) <> UncaughtTypeError.
Proof.
  register_outcomes l Hf; simpl; try discriminate.
  destruct (location_code_of_found db _ l
              (Packages db ++ [new_package db b w le wd h d p l]) (AuditTrail db) Hf)
    as [code Hc].
  congruence.
Qed.

(** ** The invariant of reachable databases *)

Lemma NoDup_snoc {A : Type} (l : list A) (x : A) :
  NoDup l -> ~ In x l -> NoDup (l ++ [x]).
Proof.
  induction l as [|a l IH]; simpl; intros Hnd Hx.
  - constructor; [intros []|constructor].
  - inversion Hnd; subst. constructor.
    + rewrite in_app_iff. simpl. intros [H|[H|[]]]; [tauto|]. subst. tauto.
    + apply IH; tauto.
Qed.

Lemma static_In db loc :
  map loc_static (Locations db) = Locations init_db ->
  In loc (Locations db) -> In (loc_static loc) (Locations init_db).
Proof. intros <- Hin. apply in_map. exact Hin. Qed.

Lemma static_In_inv db loc0 :
  map loc_static (Locations db) = Locations init_db ->
  In loc0 (Locations init_db) ->
  exists loc, In loc (Locations db) /\ loc_static loc = loc0.
Proof.
  intros <- Hin. apply in_map_iff in Hin. destruct Hin as [loc [H1 H2]]. eauto.
Qed.

Lemma is_free_in_true c loc :
  is_free_in c loc = true <-> l_category_id loc = c /\ l_is_occupied loc = false.
Proof.
  unfold is_free_in. rewrite andb_true_iff, Z.eqb_eq, negb_true_iff. tauto.
Qed.

Lemma registered_or_not (o : register_outcome) :
  o = Registered \/ o <> Registered.
Proof. destruct o; (left; reflexivity) || (right; discriminate). Qed.

Lemma wf_init : wf init_db.
Proof.
  constructor; try reflexivity.
  - constructor.
  - intros p [].
Qed.

Lemma wf_register db b w le wd h d p :
  wf db -> wf (snd (register_package db b w le wd h d p)).
Proof.
  intros Hwf.
  destruct (registered_or_not (fst (register_package db b w le wd h d p)))
    as [Hok|Hko]; [|rewrite (register_package_failure _ _ _ _ _ _ _ _ Hko); exact Hwf].
  revert Hok. rewrite register_package_unfold.
  destruct (barcode_exists db b) eqn:Hb; [discriminate|].
  destruct (find_available_location db _) as [l|] eqn:Hf; [|discriminate].
  destruct (l =? 0); [discriminate|].
  destruct (negb (packages_insert_ok db _)); [discriminate|].
  destruct (location_code_of _ l); [|discriminate].
  intros _. simpl. destruct Hwf as [Hc Hl Hn Hp].
  apply find_available_location_Some in Hf. destruct Hf as [loc [Hfind Hid]].
  apply find_some in Hfind. destruct Hfind as [Hin Hfree].
  apply is_free_in_true in Hfree. destruct Hfree as [Hcat _].
  constructor; simpl.
  - exact Hc.
  - rewrite loc_static_set_occupied. exact Hl.
  - rewrite map_app. simpl. apply NoDup_snoc; [exact Hn|].
    apply barcode_exists_false. exact Hb.
  - intros q Hq. apply in_app_iff in Hq. destruct Hq as [Hq|[<-|[]]]; [exact (Hp q Hq)|].
    simpl. split; [apply categorize_package_in_seed|].
    exists (loc_static loc). split; [apply (static_In db); assumption|].
    simpl. rewrite Hid. auto.
Qed.

Lemma loc_static_release_location b ps locs :
  map loc_static (release_location b ps locs) = map loc_static locs.
Proof.
  unfold release_location.
  destruct (find _ ps) as [p|]; [|reflexivity].
  destruct (p_location_id p); [apply loc_static_set_occupied|reflexivity].
Qed.

Lemma In_set_status s b ps q :
  In q (set_status s b ps) ->
  exists p, In p ps /\ (q = p \/ (p_barcode p = b /\ q = with_status s p)).
Proof.
  rewrite set_status_map, in_map_iff. intros [p [Hq Hin]]. exists p. split; [exact Hin|].
  destruct (String.eqb (p_barcode p) b) eqn:E; [|left; auto].
  right. split; [apply String.eqb_eq, E|auto].
Qed.

Lemma wf_update_package_status db b s :
  wf db -> wf (snd (update_package_status db b s)).
Proof.
  intros Hwf. unfold update_package_status.
  destruct (search_package db b) as [v|]; [|exact Hwf].
  destruct Hwf as [Hc Hl Hn Hp]. constructor; simpl.
  - exact Hc.
  - destruct (is_delivered s); [rewrite loc_static_release_location|]; exact Hl.
  - rewrite set_status_barcodes. exact Hn.
  - intros q Hq. apply In_set_status in Hq.
    destruct Hq as [p0 [Hin [->|[_ ->]]]]; exact (Hp p0 Hin).
Qed.

Lemma wf_step db op : wf db -> wf (step db op).
Proof.
  destruct op; simpl; [apply wf_register|apply wf_update_package_status].
Qed.

Lemma reachable_wf db : reachable db -> wf db.
Proof.
  induction 1 as [|db op _ IH]; [apply wf_init|apply wf_step, IH].
Qed.

Lemma reachable_run ops db : reachable db -> reachable (run ops db).
Proof.
  revert db. induction ops as [|op ops IH]; intros db H; simpl; [exact H|].
  apply IH. constructor. exact H.
Qed.

Lemma reachable_terminal_reachable db : reachable_terminal db -> reachable db.
Proof.
  induction 1; [constructor|constructor; assumption].
Qed.

(** ** Search *)

Lemma category_found c :
  In c [1; 2; 3; 4; 5] ->
  exists row, find (fun x => c_category_id x =? c) (Categories init_db) = Some row.
Proof.
  simpl. intros [<-|[<-|[<-|[<-|[<-|[]]]]]]; simpl; eauto.
Qed.

(** On a reachable database the join with Categories never drops a row:
    the search answers with the row of that barcode, or finds none. *)
Lemma joined_found db p :
  Categories db = Categories init_db -> In (p_category_id p) [1; 2; 3; 4; 5] ->
  exists v, joined db p = Some v /\ v_package_id v = p_package_id p
            /\ v_barcode v = p_barcode p /\ v_status v = p_status p.
Proof.
  intros Hc Hin. unfold joined. rewrite Hc.
  destruct (category_found _ Hin) as [row ->]. eexists. split; [reflexivity|]. simpl. tauto.
Qed.

Lemma first_row_spec db b ps :
  (forall p, In p ps -> exists v, joined db p = Some v /\ v_package_id v = p_package_id p
                                  /\ v_barcode v = p_barcode p /\ v_status v = p_status p) ->
  match first_row db b ps with
  | Some v =>
    exists p, find (fun p => String.eqb (p_barcode p) b) ps = Some p
              /\ In p ps /\ p_barcode p = b
              /\ v_package_id v = p_package_id p /\ v_barcode v = b
              /\ v_status v = p_status p
  | None => ~ In b (map p_barcode ps)
  end.
Proof.
  induction ps as [|p ps IH]; intros Hj; [intros []|].
  simpl. destruct (String.eqb (p_barcode p) b) eqn:E.
  - destruct (Hj p (or_introl eq_refl)) as [v [-> [H1 [H2 H3]]]].
    apply String.eqb_eq in E. exists p. rewrite <- E. tauto.
  - assert (IH' := IH (fun q Hq => Hj q (or_intror Hq))).
    destruct (first_row db b ps) as [v|].
    + destruct IH' as [q Hq]. exists q. tauto.
    + apply String.eqb_neq in E. intros [H|H]; [exact (E H)|exact (IH' H)].
Qed.

(** On a reachable database the join with Categories never drops a row:
    the search answers with the row of that barcode, or finds none. *)
Lemma search_package_spec db b :
  wf db ->
  match search_package db b with
  | Some v =>
    exists p, find (fun p => String.eqb (p_barcode p) b) (Packages db) = Some p
              /\ In p (Packages db) /\ p_barcode p = b
              /\ v_package_id v = p_package_id p /\ v_barcode v = b
              /\ v_status v = p_status p
  | None => ~ In b (map p_barcode (Packages db))
  end.
Proof.
  intros [Hc _ _ Hp]. apply first_row_spec.
  intros p Hin. apply joined_found; [exact Hc|apply (Hp p Hin)].
Qed.

Lemma search_package_found db b :
  wf db -> In b (map p_barcode (Packages db)) ->
  exists v, search_package db b = Some v.
Proof.
  intros Hwf Hin. assert (H := search_package_spec db b Hwf).
  destruct (search_package db b) as [v|]; [eauto|contradiction].
Qed.

(** ** Unique barcodes *)

Lemma barcode_unique ps p q :
  NoDup (map p_barcode ps) -> In p ps -> In q ps -> p_barcode p = p_barcode q -> p = q.
Proof.
  induction ps as [|x xs IH]; simpl; intros Hnd Hp Hq Heq; [destruct Hp|].
  inversion Hnd as [|? ? Hx Hxs]; subst.
  destruct Hp as [->|Hp], Hq as [->|Hq]; auto.
  - exfalso. apply Hx. rewrite Heq. apply in_map. exact Hq.
  - exfalso. apply Hx. rewrite <- Heq. apply in_map. exact Hp.
Qed.

Lemma set_status_absent s b ps :
  ~ In b (map p_barcode ps) -> set_status s b ps = ps.
Proof.
  induction ps as [|x xs IH]; simpl; intros H; [reflexivity|].
  destruct (String.eqb (p_barcode x) b) eqn:E.
  - apply String.eqb_eq in E. tauto.
  - f_equal. apply IH. tauto.
Qed.

(** With unique barcodes the UPDATE of the status touches one row. *)
Lemma set_status_unique s ps p :
  NoDup (map p_barcode ps) -> In p ps ->
  exists pre post, ps = pre ++ p :: post
                   /\ set_status s (p_barcode p) ps = pre ++ with_status s p :: post.
Proof.
  induction ps as [|x xs IH]; simpl; intros Hnd Hin; [destruct Hin|].
  inversion Hnd as [|? ? Hx Hxs]; subst.
  destruct Hin as [->|Hin].
  - exists [], xs. simpl. rewrite String.eqb_refl.
    rewrite (set_status_absent s _ xs Hx). auto.
  - destruct (IH Hxs Hin) as [pre [post [H1 H2]]].
    exists (x :: pre), post. simpl. split; [f_equal; exact H1|].
    destruct (String.eqb (p_barcode x) (p_barcode p)) eqn:E.
    + apply String.eqb_eq in E. exfalso. apply Hx. rewrite E. apply in_map. exact Hin.
    + f_equal. exact H2.
Qed.

Lemma find_barcode_unique ps p :
  NoDup (map p_barcode ps) -> In p ps ->
  find (fun q => String.eqb (p_barcode q) (p_barcode p)) ps = Some p.
Proof.
  induction ps as [|x xs IH]; simpl; intros Hnd Hin; [destruct Hin|].
  inversion Hnd as [|? ? Hx Hxs]; subst.
  destruct (String.eqb (p_barcode x) (p_barcode p)) eqn:E.
  - apply String.eqb_eq in E. f_equal.
    apply (barcode_unique (x :: xs)); simpl; auto.
  - destruct Hin as [->|Hin]; [rewrite String.eqb_refl in E; discriminate|auto].
Qed.

Lemma run_unique_barcodes ops :
  NoDup (map p_barcode (Packages (run ops init_db))).
Proof.
  apply wf_barcodes, reachable_wf, reachable_run. constructor.
Qed.

(** ** Registration: duplicate barcodes *)

Lemma register_package_duplicate_iff db b w le wd h d p :
  fst (register_package db b w le wd h d p) = DuplicateBarcode <->
  barcode_exists db b = true.
Proof. register_outcomes l Hf; simpl; split; congruence. Qed.

(** C5.  [register_package] ends with the duplicate-barcode message exactly
    when a package with that barcode is already stored, and then the
    database is unchanged; so after any run of the engine no two packages
    share a barcode. *)
Theorem register_package_duplicate_barcode :
  forall (db : DB) (b : string) (w le wd h : float) (d p : string),
    (fst (register_package db b w le wd h d p) = DuplicateBarcode <->
     exists q, In q (Packages db) /\ p_barcode q = b) /\
    (fst (register_package db b w le wd h d p) = DuplicateBarcode ->
     snd (register_package db b w le wd h d p) = db) /\
    (forall ops : list operation,
        NoDup (map p_barcode (Packages (run ops init_db))) /\
        forall q1 q2, In q1 (Packages (run ops init_db)) ->
                      In q2 (Packages (run ops init_db)) ->
                      p_barcode q1 = p_barcode q2 -> q1 = q2).
Proof.
  intros db b w le wd h d p. split; [|split].
  - rewrite register_package_duplicate_iff. apply barcode_exists_iff.
  - intros H. apply register_package_failure. rewrite H. discriminate.
  - intros ops. split; [apply run_unique_barcodes|].
    intros q1 q2. apply barcode_unique, run_unique_barcodes.
Qed.

Lemma register_package_duplicate_barcode_witness :
  fst (register_package heavy_stored_db "000000000001" 2.5 10.0 8.0 5.0
                        "Chicago, USA" "Standard") = DuplicateBarcode /\
  snd (register_package heavy_stored_db "000000000001" 2.5 10.0 8.0 5.0
                        "Chicago, USA" "Standard") = heavy_stored_db.
Proof.
  destruct (register_package_duplicate_barcode heavy_stored_db "000000000001"
              2.5 10.0 8.0 5.0 "Chicago, USA" "Standard") as [[_ H1] [H2 _]].
  assert (H : fst (register_package heavy_stored_db "000000000001" 2.5 10.0 8.0 5.0
                                    "Chicago, USA" "Standard") = DuplicateBarcode).
  { apply H1. exists heavy_package. split; [vm_compute; left|]; reflexivity. }
  split; [exact H|exact (H2 H)].
Defined.

(** ** Status update: outcome *)

Lemma update_package_status_not_found db b s :
  fst (update_package_status db b s) = PackageNotFound <-> search_package db b = None.
Proof.
  unfold update_package_status.
  destruct (search_package db b); simpl; split; congruence.
Qed.

Lemma update_package_status_failure db b s :
  fst (update_package_status db b s) <> Updated ->
  snd (update_package_status db b s) = db.
Proof.
  unfold update_package_status.
  destruct (search_package db b); simpl; [congruence|reflexivity].
Qed.

Lemma search_package_None db b :
  wf db -> (search_package db b = None <-> ~ In b (map p_barcode (Packages db))).
Proof.
  intros Hwf. assert (H := search_package_spec db b Hwf).
  destruct (search_package db b) as [v|].
  - destruct H as [p [_ [Hin [Hb _]]]]. split; [discriminate|].
    intros Hn. exfalso. apply Hn. rewrite <- Hb. apply in_map. exact Hin.
  - tauto.
Qed.

Lemma In_with_status s b ps p :
  In p ps -> p_barcode p = b -> In (with_status s p) (set_status s b ps).
Proof.
  intros Hin Hb. rewrite set_status_map. apply in_map_iff. exists p.
  split; [|exact Hin]. apply String.eqb_eq in Hb. rewrite Hb. reflexivity.
Qed.

(** C8.  [update_package_status] ends with the not-found message exactly
    when no package has the barcode, and then changes nothing; when the
    package exists the call succeeds and stores the new status, whatever
    the string and whatever the old status (so also from Delivered back
    to Stored). *)
Theorem update_package_status_total :
  forall (db : DB), reachable db ->
  forall (b s : string),
    (fst (update_package_status db b s) = PackageNotFound <->
     ~ exists p, In p (Packages db) /\ p_barcode p = b) /\
    (fst (update_package_status db b s) = PackageNotFound ->
     snd (update_package_status db b s) = db) /\
    (forall p, In p (Packages db) -> p_barcode p = b ->
               fst (update_package_status db b s) = Updated /\
               In (with_status s p) (Packages (snd (update_package_status db b s)))).
Proof.
  intros db Hr b s. apply reachable_wf in Hr. split; [|split].
  - rewrite update_package_status_not_found, (search_package_None db b Hr), in_map_iff.
    split; intros H [p Hp]; apply H; exists p; tauto.
  - intros H. apply update_package_status_failure. rewrite H. discriminate.
  - intros p Hin Hb.
    destruct (search_package_found db b Hr) as [v Hv].
    { rewrite <- Hb. apply in_map. exact Hin. }
    unfold update_package_status. rewrite Hv. simpl.
    split; [reflexivity|]. apply In_with_status; assumption.
Qed.

Lemma update_package_status_total_witness :
  fst (update_package_status heavy_delivered_db "000000000001" "Stored") = Updated /\
  In (with_status "Stored" (with_status "Delivered" heavy_package))
     (Packages (snd (update_package_status heavy_delivered_db "000000000001" "Stored"))).
Proof.
  destruct (update_package_status_total heavy_delivered_db (reachable_run _ _ reach_init)
              "000000000001" "Stored") as [_ [_ H]].
  apply (H (with_status "Delivered" heavy_package)).
  - vm_compute. left. reflexivity.
  - reflexivity.
Defined.

(** ** Audit trail *)

Lemma location_code_of_Some db l code :
  location_code_of db l = Some code ->
  exists loc, In loc (Locations db) /\ l_location_id loc = l /\ l_location_code loc = code.
Proof.
  unfold location_code_of.
  destruct (find _ (Locations db)) as [loc|] eqn:Hf; [|discriminate].
  simpl. intros H. injection H as H. apply find_some in Hf.
  destruct Hf as [Hin Hid]. apply Z.eqb_eq in Hid. eauto.
Qed.

(** C9.  A successful [register_package] appends one entry to the audit
    trail: its action is REGISTERED, its new status Stored, its new
    location the code of the location given to the package.  A successful
    [update_package_status] appends one entry: its action is
    STATUS_UPDATE, with the status the package had and the one it gets.
    A call that fails appends nothing. *)
Theorem audit_trail_complete :
  forall (db : DB), reachable db ->
  forall (b : string) (w le wd h : float) (d p s : string),
    (fst (register_package db b w le wd h d p) = Registered ->
     exists e q loc,
       AuditTrail (snd (register_package db b w le wd h d p)) = AuditTrail db ++ [e]
       /\ a_action e = "REGISTERED"
       /\ a_old_status e = None /\ a_new_status e = Some "Stored"
       /\ In q (Packages (snd (register_package db b w le wd h d p)))
       /\ p_barcode q = b /\ p_package_id q = a_package_id e
       /\ In loc (Locations (snd (register_package db b w le wd h d p)))
       /\ p_location_id q = Some (l_location_id loc)
       /\ a_new_location e = Some (l_location_code loc)) /\
    (fst (register_package db b w le wd h d p) <> Registered ->
     AuditTrail (snd (register_package db b w le wd h d p)) = AuditTrail db) /\
    (fst (update_package_status db b s) = Updated ->
     exists e q,
       AuditTrail (snd (update_package_status db b s)) = AuditTrail db ++ [e]
       /\ a_action e = "STATUS_UPDATE"
       /\ In q (Packages db) /\ p_barcode q = b /\ p_package_id q = a_package_id e
       /\ a_old_status e = Some (p_status q) /\ a_new_status e = Some s) /\
    (fst (update_package_status db b s) <> Updated ->
     AuditTrail (snd (update_package_status db b s)) = AuditTrail db).
Proof.
  intros db Hr b w le wd h d p s. apply reachable_wf in Hr.
  split; [|split; [|split]].
  - rewrite register_package_unfold.
    destruct (barcode_exists db b); [discriminate|].
    destruct (find_available_location db _) as [l|]; [|discriminate].
    destruct (l =? 0); [discriminate|].
    destruct (negb (packages_insert_ok db _)); [discriminate|].
    destruct (location_code_of _ l) as [code|] eqn:Hcode; [|discriminate].
    intros _. apply location_code_of_Some in Hcode.
    destruct Hcode as [loc [Hin [Hid Hc]]]. simpl in Hin.
    eexists. exists (new_package db b w le wd h d p l), loc. simpl.
    split; [reflexivity|]. repeat split; try reflexivity.
    + apply in_or_app. right. left. reflexivity.
    + exact Hin.
    + rewrite Hid. reflexivity.
    + rewrite Hc. reflexivity.
  - intros H. rewrite (register_package_failure _ _ _ _ _ _ _ _ H). reflexivity.
  - assert (Hs := search_package_spec db b Hr). unfold update_package_status.
    destruct (search_package db b) as [v|]; [|discriminate].
    intros _. destruct Hs as [q [_ [Hin [Hb [Hid [_ Hst]]]]]].
    eexists. exists q. simpl. split; [reflexivity|]. simpl.
    rewrite Hid, Hst. tauto.
  - intros H. rewrite (update_package_status_failure _ _ _ H). reflexivity.
Qed.

Lemma audit_trail_complete_witness :
  (exists e,
      AuditTrail (snd (register_package heavy_stored_db "000000000002" 2.5 10.0 8.0 5.0
                                        "Chicago, USA" "Standard"))
      = AuditTrail heavy_stored_db ++ [e]
      /\ a_action e = "REGISTERED" /\ a_new_status e = Some "Stored") /\
  (exists e,
      AuditTrail (snd (update_package_status heavy_stored_db "000000000001" "Delivered"))
      = AuditTrail heavy_stored_db ++ [e]
      /\ a_action e = "STATUS_UPDATE"
      /\ a_old_status e = Some "Stored" /\ a_new_status e = Some "Delivered").
Proof.
  destruct (audit_trail_complete heavy_stored_db (reachable_run _ _ reach_init)
              "000000000002" 2.5 10.0 8.0 5.0 "Chicago, USA" "Standard" "Delivered")
    as [H1 _].
  destruct (audit_trail_complete heavy_stored_db (reachable_run _ _ reach_init)
              "000000000001" 2.5 10.0 8.0 5.0 "Chicago, USA" "Standard" "Delivered")
    as [_ [_ [H2 _]]].
  split.
  - destruct (H1 eq_refl) as [e [q [loc [E1 [E2 [_ [E3 _]]]]]]]. exists e. auto.
  - destruct (H2 eq_refl) as [e [q [E1 [E2 [E3 [E4 [_ [E5 E6]]]]]]]]. exists e.
    split; [exact E1|]. split; [exact E2|]. split; [|exact E6].
    rewrite E5. f_equal.
    assert (Hq : q = heavy_package); [|rewrite Hq; reflexivity].
    vm_compute in E3. destruct E3 as [<-|[]]. reflexivity.
Defined.

(** ** Status update: frame *)

(** C10.  On an existing package, with a new status that is not
    "delivered" in any case, [update_package_status] leaves the Locations
    table as it is and replaces one row of Packages by a row that
    differs in the status only. *)
Theorem update_package_status_frame :
  forall (db : DB), reachable db ->
  forall (p : Package) (s : string),
    In p (Packages db) -> is_delivered s = false ->
    Locations (snd (update_package_status db (p_barcode p) s)) = Locations db /\
    Categories (snd (update_package_status db (p_barcode p) s)) = Categories db /\
    exists pre post p',
      Packages db = pre ++ p :: post /\
      Packages (snd (update_package_status db (p_barcode p) s)) = pre ++ p' :: post /\
      p_status p' = s /\
      p_location_id p' = p_location_id p /\ p_category_id p' = p_category_id p /\
      p_package_id p' = p_package_id p /\ p_barcode p' = p_barcode p /\
      p_weight p' = p_weight p /\ p_length p' = p_length p /\
      p_width p' = p_width p /\ p_height p' = p_height p /\
      p_destination p' = p_destination p /\ p_priority p' = p_priority p.
Proof.
  intros db Hr p s Hin Hs. apply reachable_wf in Hr.
  destruct (search_package_found db (p_barcode p) Hr) as [v Hv];
    [apply in_map; exact Hin|].
  unfold update_package_status. rewrite Hv, Hs. simpl.
  split; [reflexivity|]. split; [reflexivity|].
  destruct (set_status_unique s (Packages db) p (wf_barcodes db Hr) Hin)
    as [pre [post [H1 H2]]].
  exists pre, post, (with_status s p). simpl. tauto.
Qed.

Lemma update_package_status_frame_witness :
  Locations (snd (update_package_status heavy_stored_db "000000000001" "In Transit"))
  = Locations heavy_stored_db.
Proof.
  apply (update_package_status_frame heavy_stored_db (reachable_run _ _ reach_init)
           heavy_package "In Transit").
  - vm_compute. left. reflexivity.
  - reflexivity.
Defined.

(** ** Registration: exhausted pool *)

Lemma pool_exhausted_find db c :
  pool_exhausted db c = true -> find_available_location db c = None.
Proof.
  unfold pool_exhausted, find_available_location. intros H.
  destruct (find (is_free_in c) (Locations db)) as [loc|] eqn:Hf; [|reflexivity].
  apply find_some in Hf. destruct Hf as [Hin Hfree].
  rewrite forallb_forall in H. specialize (H loc Hin).
  rewrite Hfree in H. discriminate.
Qed.

Lemma pool_exhausted_spec db c :
  pool_exhausted db c = true <->
  forall loc, In loc (Locations db) -> l_category_id loc = c -> l_is_occupied loc = true.
Proof.
  unfold pool_exhausted. rewrite forallb_forall. split; intros H loc Hin.
  - intros Hc. specialize (H loc Hin). unfold is_free_in in H.
    rewrite Hc, Z.eqb_refl in H. simpl in H.
    destruct (l_is_occupied loc); [reflexivity|discriminate].
  - unfold is_free_in. destruct (l_category_id loc =? c) eqn:E; [|reflexivity].
    apply Z.eqb_eq in E. rewrite (H loc Hin E). reflexivity.
Qed.

(** C4, as stated, fails: with the pool of the category full, a barcode
    that is already stored ends the call with the duplicate-barcode
    message, not with the no-location one. *)
Lemma exhausted_pool_duplicate_barcode :
  ~ (forall (db : DB), reachable db ->
     forall (b : string) (w le wd h : float) (d p : string),
       (forall loc, In loc (Locations db) ->
                    l_category_id loc = fst (categorize_package w p d) ->
                    l_is_occupied loc = true) ->
       register_package db b w le wd h d p = (NoAvailableLocation, db)).
Proof.
  intros H.
  assert (Hr : reachable standard_full_db) by (apply reachable_run; constructor).
  specialize (H standard_full_db Hr "P01" 10.0%float 30.0%float 20.0%float 15.0%float
                "Boston, USA" "Standard").
  assert (E : fst (register_package standard_full_db "P01" 10.0 30.0 20.0 15.0
                                    "Boston, USA" "Standard") = DuplicateBarcode)
    by (vm_compute; reflexivity).
  rewrite H in E; [discriminate E|].
  apply pool_exhausted_spec. vm_compute. reflexivity.
Qed.

(** C4, amended.  When the barcode is new and every location of the
    category chosen for the attributes is occupied, [register_package]
    ends with the no-location message and the database is unchanged: no
    package row, no occupancy flag, no audit entry. *)
Theorem register_package_pool_exhausted :
  forall (db : DB) (b : string) (w le wd h : float) (d p : string),
    barcode_exists db b = false ->
    (forall loc, In loc (Locations db) ->
                 l_category_id loc = fst (categorize_package w p d) ->
                 l_is_occupied loc = true) ->
    register_package db b w le wd h d p = (NoAvailableLocation, db).
Proof.
  intros db b w le wd h d p Hb Hfull. rewrite register_package_unfold, Hb.
  rewrite (pool_exhausted_find db _); [reflexivity|].
  apply pool_exhausted_spec. exact Hfull.
Qed.

Lemma register_package_pool_exhausted_witness :
  register_package standard_full_db "P21" 10.0 30.0 20.0 15.0 "Boston, USA" "Standard"
  = (NoAvailableLocation, standard_full_db).
Proof.
  apply (register_package_pool_exhausted standard_full_db "P21" 10.0 30.0 20.0 15.0
                                         "Boston, USA" "Standard").
  - vm_compute. reflexivity.
  - apply pool_exhausted_spec. vm_compute. reflexivity.
Defined.

(** ** The provisioned grid *)

Lemma init_location_ids :
  map l_location_id (Locations init_db) = map Z.of_nat (seq 1 100).
Proof. vm_compute. reflexivity. Qed.

Lemma NoDup_map_injective {A B : Type} (f : A -> B) (l : list A) :
  (forall x y, f x = f y -> x = y) -> NoDup l -> NoDup (map f l).
Proof.
  intros Hinj. induction 1 as [|x l Hx Hl IH]; simpl; constructor; [|exact IH].
  rewrite in_map_iff. intros [y [Hy Hin]]. apply Hinj in Hy. subst. exact (Hx Hin).
Qed.

Lemma init_location_ids_NoDup : NoDup (map l_location_id (Locations init_db)).
Proof.
  rewrite init_location_ids. apply NoDup_map_injective.
  - intros x y. apply Nat2Z.inj.
  - apply seq_NoDup.
Qed.

Lemma init_location_ids_nonzero :
  forall loc, In loc (Locations init_db) -> l_location_id loc <> 0.
Proof.
  intros loc Hin. apply (in_map l_location_id) in Hin.
  rewrite init_location_ids, in_map_iff in Hin.
  destruct Hin as [n [<- Hn]]. apply in_seq in Hn. lia.
Qed.

(** The grid of a reachable database is the provisioned one. *)
Section Grid.

Variable db : DB.
Hypothesis Hwf : wf db.

Lemma location_ids_static :
  map l_location_id (Locations db) = map l_location_id (Locations init_db).
Proof. rewrite <- (wf_locations db Hwf). symmetry. apply loc_static_id. Qed.

Lemma location_ids_NoDup : NoDup (map l_location_id (Locations db)).
Proof. rewrite location_ids_static. apply init_location_ids_NoDup. Qed.

Lemma location_id_nonzero loc : In loc (Locations db) -> l_location_id loc <> 0.
Proof.
  intros Hin.
  apply (init_location_ids_nonzero (loc_static loc)), (static_In db); [apply Hwf|exact Hin].
Qed.

End Grid.

Lemma location_unique locs x y :
  NoDup (map l_location_id locs) -> In x locs -> In y locs ->
  l_location_id x = l_location_id y -> x = y.
Proof.
  induction locs as [|a l IH]; simpl; intros Hnd Hx Hy Heq; [destruct Hx|].
  inversion Hnd as [|? ? Ha Hl]; subst.
  destruct Hx as [->|Hx], Hy as [->|Hy]; auto.
  - exfalso. apply Ha. rewrite Heq. apply in_map. exact Hy.
  - exfalso. apply Ha. rewrite <- Heq. apply in_map. exact Hx.
Qed.

Lemma find_location_unique locs loc :
  NoDup (map l_location_id locs) -> In loc locs ->
  find (fun x => l_location_id x =? l_location_id loc) locs = Some loc.
Proof.
  intros Hnd Hin. destruct (find_by_id_In locs loc Hin) as [loc' [Hf [Hin' Hid]]].
  rewrite Hf. f_equal. apply (location_unique locs); assumption.
Qed.

Lemma In_set_occupied flag l locs loc :
  In loc locs ->
  In (if l_location_id loc =? l then with_occupied flag loc else loc)
     (set_occupied flag l locs).
Proof.
  intros Hin. rewrite set_occupied_map.
  apply (in_map (fun x => if l_location_id x =? l then with_occupied flag x else x)).
  exact Hin.
Qed.

(** ** Registration: success *)

Lemma category_exists c :
  In c [1; 2; 3; 4; 5] ->
  existsb (fun x => c_category_id x =? c) (Categories init_db) = true.
Proof.
  simpl. intros [<-|[<-|[<-|[<-|[<-|[]]]]]]; reflexivity.
Qed.

(** A new barcode, numbers for the dimensions and a free location are all
    that a registration needs. *)
Lemma register_package_succeeds db b w le wd h d p loc :
  wf db ->
  barcode_exists db b = false ->
  PrimFloat.is_nan w = false -> PrimFloat.is_nan le = false ->
  PrimFloat.is_nan wd = false -> PrimFloat.is_nan h = false ->
  find (is_free_in (fst (categorize_package w p d))) (Locations db) = Some loc ->
  fst (register_package db b w le wd h d p) = Registered /\
  Locations (snd (register_package db b w le wd h d p))
  = set_occupied true (l_location_id loc) (Locations db) /\
  Packages (snd (register_package db b w le wd h d p))
  = Packages db ++ [new_package db b w le wd h d p (l_location_id loc)].
Proof.
  intros Hwf Hb Hw Hle Hwd Hh Hf.
  assert (Hfa : find_available_location db (fst (categorize_package w p d))
                = Some (l_location_id loc)).
  { apply find_available_location_Some. eauto. }
  apply find_some in Hf. destruct Hf as [Hin _].
  rewrite register_package_unfold, Hb, Hfa.
  destruct (l_location_id loc =? 0) eqn:E0.
  { apply Z.eqb_eq in E0. exfalso. exact (location_id_nonzero db Hwf loc Hin E0). }
  assert (Hok : packages_insert_ok db (new_package db b w le wd h d p (l_location_id loc))
                = true).
  { unfold packages_insert_ok. simpl. rewrite Hw, Hle, Hwd, Hh, Hb. simpl.
    rewrite (wf_categories db Hwf), (category_exists _ (categorize_package_in_seed w p d)).
    simpl. apply existsb_exists. exists loc. split; [exact Hin|apply Z.eqb_refl]. }
  rewrite Hok. simpl negb. cbv iota.
  destruct (location_code_of_found db _ _
              (Packages db ++ [new_package db b w le wd h d p (l_location_id loc)])
              (AuditTrail db) Hfa) as [code Hc].
  rewrite Hc. simpl. auto.
Qed.

(** ** New barcodes *)

Lemma string_length_append (a b : string) :
  String.length (a ++ b)%string = (String.length a + String.length b)%nat.
Proof. induction a as [|c a IH]; simpl; [reflexivity|rewrite IH; reflexivity]. Qed.

Lemma fresh_barcode_longer ps p :
  In p ps -> (String.length (p_barcode p) < String.length (fresh_barcode ps))%nat.
Proof.
  induction ps as [|x xs IH]; simpl; intros Hin; [destruct Hin|].
  rewrite string_length_append. destruct Hin as [->|Hin].
  - assert (0 < String.length (fresh_barcode xs))%nat; [|lia].
    clear. induction xs as [|y ys IH]; simpl; [lia|].
    rewrite string_length_append. lia.
  - specialize (IH Hin). lia.
Qed.

Lemma fresh_barcode_new db : barcode_exists db (fresh_barcode (Packages db)) = false.
Proof.
  apply not_true_iff_false. rewrite barcode_exists_iff. intros [p [Hin Hb]].
  apply fresh_barcode_longer in Hin. rewrite Hb in Hin. lia.
Qed.

Lemma attributes_for_spec c :
  In c [1; 2; 3; 4; 5] ->
  forall w p d, attributes_for c = (w, p, d) ->
                fst (categorize_package w p d) = c /\ PrimFloat.is_nan w = false.
Proof.
  simpl. intros [<-|[<-|[<-|[<-|[<-|[]]]]]] w p d H; injection H as <- <- <-;
    split; reflexivity.
Qed.

Lemma step_register_in db c b w p d :
  attributes_for c = (w, p, d) ->
  step db (register_in c b) = snd (register_package db b w 30.0 20.0 15.0 d p).
Proof. intros H. unfold register_in. rewrite H. reflexivity. Qed.

Lemma is_register_register_in c b : is_register (register_in c b) = true.
Proof. unfold register_in. destruct (attributes_for c) as [[w p] d]. reflexivity. Qed.

(** ** Reusing a free location *)

Lemma is_free_in_occupied c x : is_free_in c (with_occupied true x) = false.
Proof. unfold is_free_in. simpl. apply andb_false_r. Qed.

Lemma free_count_le c l locs :
  (List.length (filter (is_free_in c) (set_occupied true l locs))
   <= List.length (filter (is_free_in c) locs))%nat.
Proof.
  rewrite set_occupied_map.
  induction locs as [|x xs IH]; cbn [map filter List.length]; [lia|].
  destruct (l_location_id x =? l).
  - rewrite is_free_in_occupied. destruct (is_free_in c x); cbn [List.length]; lia.
  - destruct (is_free_in c x); cbn [List.length]; lia.
Qed.

Lemma free_count_lt c locs loc0 :
  In loc0 locs -> is_free_in c loc0 = true ->
  (List.length (filter (is_free_in c) (set_occupied true (l_location_id loc0) locs))
   < List.length (filter (is_free_in c) locs))%nat.
Proof.
  induction locs as [|x xs IH]; intros Hin Hfree; [destruct Hin|].
  assert (Hle := free_count_le c (l_location_id loc0) xs).
  rewrite set_occupied_map in *. cbn [map filter List.length].
  destruct Hin as [->|Hin].
  - rewrite Z.eqb_refl, Hfree, is_free_in_occupied. cbn [List.length]. lia.
  - specialize (IH Hin Hfree).
    destruct (l_location_id x =? l_location_id loc0).
    + rewrite is_free_in_occupied. destruct (is_free_in c x); cbn [List.length]; lia.
    + destruct (is_free_in c x); cbn [List.length]; lia.
Qed.

(** A free location is given to some later registration: new packages of
    its category take the free locations before it, then the next one
    takes it. *)
Lemma free_location_assignable n :
  forall db c loc,
    wf db -> In c [1; 2; 3; 4; 5] ->
    In loc (Locations db) -> is_free_in c loc = true ->
    (List.length (filter (is_free_in c) (Locations db)) <= n)%nat ->
    exists ops b,
      forallb is_register ops = true /\
      barcode_exists (run ops db) b = false /\
      exists q, In q (Packages (step (run ops db) (register_in c b)))
                /\ p_barcode q = b /\ p_status q = "Stored"
                /\ p_location_id q = Some (l_location_id loc).
Proof.
  induction n as [|n IH]; intros db c loc Hwf Hc Hin Hfree Hn.
  - assert (Hf : In loc (filter (is_free_in c) (Locations db)))
      by (apply filter_In; auto).
    destruct (filter (is_free_in c) (Locations db)); [destruct Hf|simpl in Hn; lia].
  - destruct (attributes_for c) as [[w p] d] eqn:Ha.
    destruct (attributes_for_spec c Hc w p d Ha) as [Hcat Hw].
    destruct (find (is_free_in c) (Locations db)) as [loc0|] eqn:Hf;
      [|rewrite (find_none _ _ Hf loc Hin) in Hfree; discriminate].
    destruct (register_package_succeeds db (fresh_barcode (Packages db))
                w 30.0 20.0 15.0 d p loc0 Hwf (fresh_barcode_new db) Hw
                eq_refl eq_refl eq_refl) as [_ [Hlocs Hpk]];
      [rewrite Hcat; exact Hf|].
    destruct (l_location_id loc0 =? l_location_id loc) eqn:E.
    + apply Z.eqb_eq in E. exists [], (fresh_barcode (Packages db)). simpl.
      split; [reflexivity|]. split; [apply fresh_barcode_new|].
      exists (new_package db (fresh_barcode (Packages db)) w 30.0 20.0 15.0 d p
                          (l_location_id loc0)).
      rewrite (step_register_in db c _ w p d Ha), Hpk. simpl.
      rewrite E. repeat split. apply in_or_app. right. left. reflexivity.
    + apply find_some in Hf. destruct Hf as [Hin0 Hfree0].
      set (op := register_in c (fresh_barcode (Packages db))).
      assert (Hl' : Locations (step db op)
                    = set_occupied true (l_location_id loc0) (Locations db)).
      { unfold op. rewrite (step_register_in db c _ w p d Ha). exact Hlocs. }
      destruct (IH (step db op) c loc) as [ops [b [H1 [H2 H3]]]].
      * apply wf_step, Hwf.
      * exact Hc.
      * rewrite Hl'.
        assert (H := In_set_occupied true (l_location_id loc0) _ _ Hin).
        rewrite Z.eqb_sym, E in H. exact H.
      * exact Hfree.
      * rewrite Hl'. assert (H := free_count_lt c _ loc0 Hin0 Hfree0). lia.
      * exists (op :: ops), b. simpl.
        split; [unfold op; rewrite is_register_register_in; exact H1|].
        split; [exact H2|exact H3].
Qed.

(** ** Delivery *)

(** What a delivery writes, on a reachable database. *)
Lemma update_package_status_delivered db p s l :
  wf db -> In p (Packages db) -> is_delivered s = true -> p_location_id p = Some l ->
  fst (update_package_status db (p_barcode p) s) = Updated /\
  Locations (snd (update_package_status db (p_barcode p) s))
  = set_occupied false l (Locations db) /\
  Packages (snd (update_package_status db (p_barcode p) s))
  = set_status s (p_barcode p) (Packages db).
Proof.
  intros Hwf Hin Hs Hl.
  destruct (search_package_found db (p_barcode p) Hwf) as [v Hv];
    [apply in_map; exact Hin|].
  unfold update_package_status. rewrite Hv, Hs. simpl.
  split; [reflexivity|]. split; [|reflexivity].
  unfold release_location.
  assert (Hf : find (fun q => String.eqb (p_barcode q) (p_barcode p))
                    (set_status s (p_barcode p) (Packages db))
               = Some (with_status s p)).
  { apply (find_barcode_unique _ (with_status s p)).
    - rewrite set_status_barcodes. apply Hwf.
    - apply In_with_status; [exact Hin|reflexivity]. }
  rewrite Hf. simpl. rewrite Hl. reflexivity.
Qed.

Lemma update_package_status_kept db p s :
  wf db -> In p (Packages db) -> is_delivered s = false ->
  fst (update_package_status db (p_barcode p) s) = Updated /\
  Locations (snd (update_package_status db (p_barcode p) s)) = Locations db /\
  Packages (snd (update_package_status db (p_barcode p) s))
  = set_status s (p_barcode p) (Packages db).
Proof.
  intros Hwf Hin Hs.
  destruct (search_package_found db (p_barcode p) Hwf) as [v Hv];
    [apply in_map; exact Hin|].
  unfold update_package_status. rewrite Hv, Hs. simpl. auto.
Qed.

(** The location of a package, in the current table. *)
Lemma package_location db p :
  wf db -> In p (Packages db) ->
  exists loc, In loc (Locations db) /\ p_location_id p = Some (l_location_id loc)
              /\ l_category_id loc = p_category_id p.
Proof.
  intros Hwf Hin. destruct (wf_packages db Hwf p Hin) as [_ [loc0 [H0 [Hid Hcat]]]].
  destruct (static_In_inv db loc0 (wf_locations db Hwf) H0) as [loc [Hl <-]].
  exists loc. auto.
Qed.

(** C3, as stated, fails: after the delivery the package still refers to
    the location it had. *)
Lemma delivered_keeps_location_reference :
  ~ (forall (db : DB), reachable db ->
     forall p, In p (Packages db) -> p_status p = "Stored" ->
     forall p', In p' (Packages (snd (update_package_status db (p_barcode p) "Delivered"))) ->
                p_barcode p' = p_barcode p -> p_location_id p' = None).
Proof.
  intros H.
  pose (p := new_package init_db "000000000001" 60.0 60.0 50.0 40.0
                         "Houston, USA" "Standard" 61).
  assert (Hp : Packages heavy_stored_db = [p]) by (vm_compute; reflexivity).
  assert (E : p_location_id (with_status "Delivered" p) = None).
  { apply (H heavy_stored_db (reachable_run _ _ reach_init) p).
    - rewrite Hp. left. reflexivity.
    - reflexivity.
    - vm_compute. left. reflexivity.
    - reflexivity. }
  discriminate E.
Qed.

(** C3, amended.  For a package with status Stored, the call
    [update_package_status barcode "Delivered"] succeeds and marks the
    package's location unoccupied; the package keeps its reference to
    that location; and later registrations can be given the location:
    after some registrations (none when the location is the first free
    one of its category) the next new package of the category is stored
    there. *)
Theorem deliver_releases_location :
  forall (db : DB), reachable db ->
  forall p, In p (Packages db) -> p_status p = "Stored" ->
    fst (update_package_status db (p_barcode p) "Delivered") = Updated /\
    exists loc,
      p_location_id p = Some (l_location_id loc) /\
      In loc (Locations (snd (update_package_status db (p_barcode p) "Delivered"))) /\
      l_is_occupied loc = false /\
      (exists p',
          In p' (Packages (snd (update_package_status db (p_barcode p) "Delivered")))
          /\ p_barcode p' = p_barcode p /\ p_status p' = "Delivered"
          /\ p_location_id p' = Some (l_location_id loc)) /\
      exists ops b,
        forallb is_register ops = true /\
        barcode_exists
          (run ops (snd (update_package_status db (p_barcode p) "Delivered"))) b = false /\
        exists q,
          In q (Packages
                  (step (run ops (snd (update_package_status db (p_barcode p) "Delivered")))
                        (register_in (p_category_id p) b)))
          /\ p_barcode q = b /\ p_status q = "Stored"
          /\ p_location_id q = Some (l_location_id loc).
Proof.
  intros db Hr p Hin _. apply reachable_wf in Hr.
  destruct (package_location db p Hr Hin) as [loc [Hl [Hid Hcat]]].
  destruct (update_package_status_delivered db p "Delivered" _ Hr Hin eq_refl Hid)
    as [Hok [Hlocs Hpk]].
  assert (Hwf' := wf_update_package_status db (p_barcode p) "Delivered" Hr).
  split; [exact Hok|].
  exists (with_occupied false loc).
  assert (Hin' : In (with_occupied false loc)
                    (Locations (snd (update_package_status db (p_barcode p) "Delivered")))).
  { rewrite Hlocs. assert (H := In_set_occupied false (l_location_id loc) _ _ Hl).
    rewrite Z.eqb_refl in H. exact H. }
  split; [exact Hid|]. split; [exact Hin'|]. split; [reflexivity|]. split.
  - exists (with_status "Delivered" p). rewrite Hpk.
    split; [apply In_with_status; [exact Hin|reflexivity]|]. simpl. auto.
  - eapply (free_location_assignable _ _ (p_category_id p) (with_occupied false loc) Hwf').
    + apply (wf_packages db Hr p Hin).
    + exact Hin'.
    + apply is_free_in_true. simpl. auto.
    + apply Nat.le_refl.
Qed.

Lemma deliver_releases_location_witness :
  fst (update_package_status heavy_stored_db "000000000001" "Delivered") = Updated /\
  exists loc,
    Some 61 = Some (l_location_id loc) /\
    In loc (Locations (snd (update_package_status heavy_stored_db "000000000001"
                                                  "Delivered"))) /\
    l_is_occupied loc = false.
Proof.
  destruct (deliver_releases_location heavy_stored_db (reachable_run _ _ reach_init)
              (new_package init_db "000000000001" 60.0 60.0 50.0 40.0
                           "Houston, USA" "Standard" 61))
    as [H1 [loc [H2 [H3 [H4 _]]]]].
  - vm_compute. left. reflexivity.
  - reflexivity.
  - split; [exact H1|]. exists loc. split; [exact H2|]. split; [exact H3|exact H4].
Defined.

(** ** One row at a time *)

Lemma set_occupied_absent flag l locs :
  ~ In l (map l_location_id locs) -> set_occupied flag l locs = locs.
Proof.
  induction locs as [|x xs IH]; simpl; intros H; [reflexivity|].
  destruct (l_location_id x =? l) eqn:E.
  - apply Z.eqb_eq in E. tauto.
  - f_equal. apply IH. tauto.
Qed.

(** With unique ids the UPDATE of the flag touches one row. *)
Lemma set_occupied_unique flag locs loc :
  NoDup (map l_location_id locs) -> In loc locs ->
  exists pre post, locs = pre ++ loc :: post
                   /\ set_occupied flag (l_location_id loc) locs
                      = pre ++ with_occupied flag loc :: post.
Proof.
  induction locs as [|x xs IH]; simpl; intros Hnd Hin; [destruct Hin|].
  inversion Hnd as [|? ? Hx Hxs]; subst.
  destruct Hin as [->|Hin].
  - exists [], xs. simpl. rewrite Z.eqb_refl.
    rewrite (set_occupied_absent flag _ xs Hx). auto.
  - destruct (IH Hxs Hin) as [pre [post [H1 H2]]].
    exists (x :: pre), post. simpl. split; [f_equal; exact H1|].
    destruct (l_location_id x =? l_location_id loc) eqn:E.
    + apply Z.eqb_eq in E. exfalso. apply Hx. rewrite E. apply in_map. exact Hin.
    + f_equal. exact H2.
Qed.

Lemma find_set_occupied flag l0 locs l :
  find (fun x => l_location_id x =? l) (set_occupied flag l0 locs)
  = option_map (fun x => if l_location_id x =? l0 then with_occupied flag x else x)
               (find (fun x => l_location_id x =? l) locs).
Proof.
  rewrite set_occupied_map.
  induction locs as [|x xs IH]; cbn [map find]; [reflexivity|].
  replace (l_location_id (if l_location_id x =? l0 then with_occupied flag x else x))
    with (l_location_id x) by (destruct (l_location_id x =? l0); reflexivity).
  destruct (l_location_id x =? l); [reflexivity|exact IH].
Qed.

(** The zone of a package's location does not depend on the flags. *)
Lemma stored_in_zone_set_occupied db db' flag l0 z p :
  Locations db' = set_occupied flag l0 (Locations db) ->
  stored_in_zone db' z p = stored_in_zone db z p.
Proof.
  intros H. unfold stored_in_zone, location_of. rewrite H.
  destruct (p_location_id p) as [l|]; [|reflexivity].
  rewrite find_set_occupied.
  destruct (find _ (Locations db)) as [loc|]; [|reflexivity].
  simpl. destruct (l_location_id loc =? l0); reflexivity.
Qed.

Lemma stored_in_zone_same db db' z p :
  Locations db' = Locations db -> stored_in_zone db' z p = stored_in_zone db z p.
Proof. intros H. unfold stored_in_zone, location_of. rewrite H. reflexivity. Qed.

Lemma stored_in_zone_at db z p loc :
  wf db -> In loc (Locations db) -> p_location_id p = Some (l_location_id loc) ->
  stored_in_zone db z p = String.eqb (l_zone loc) z.
Proof.
  intros Hwf Hin Hid. unfold stored_in_zone, location_of. rewrite Hid.
  rewrite (find_location_unique _ loc (location_ids_NoDup db Hwf) Hin). reflexivity.
Qed.

Lemma occupied_count_set flag db db' loc z :
  wf db -> In loc (Locations db) -> l_is_occupied loc = negb flag ->
  Locations db' = set_occupied flag (l_location_id loc) (Locations db) ->
  ((if flag then occupied_in_zone db' z else occupied_in_zone db z)
   = (if flag then occupied_in_zone db z else occupied_in_zone db' z)
     + (if String.eqb (l_zone loc) z then 1 else 0))%nat.
Proof.
  intros Hwf Hin Hocc Hl. unfold occupied_in_zone. rewrite Hl.
  destruct (set_occupied_unique flag _ loc (location_ids_NoDup db Hwf) Hin)
    as [pre [post [H1 H2]]].
  rewrite H2, H1. rewrite !filter_app, !length_app. cbn [filter].
  rewrite Hocc. destruct flag; simpl; destruct (String.eqb (l_zone loc) z); simpl; lia.
Qed.

(** ** Registration: what a success writes *)

Lemma register_package_Registered db b w le wd h d p :
  fst (register_package db b w le wd h d p) = Registered ->
  exists loc,
    barcode_exists db b = false /\
    find (is_free_in (fst (categorize_package w p d))) (Locations db) = Some loc /\
    Locations (snd (register_package db b w le wd h d p))
    = set_occupied true (l_location_id loc) (Locations db) /\
    Packages (snd (register_package db b w le wd h d p))
    = Packages db ++ [new_package db b w le wd h d p (l_location_id loc)].
Proof.
  register_outcomes l Hf; try discriminate.
  intros _. apply find_available_location_Some in Hf. destruct Hf as [loc [Hf <-]].
  exists loc. simpl. auto.
Qed.

(** ** Conservation while Delivered is terminal *)

Lemma forallb_filter_nil {A : Type} (f : A -> bool) (l : list A) :
  filter f l = [] <-> forallb (fun x => negb (f x)) l = true.
Proof.
  induction l as [|x xs IH]; simpl; [tauto|].
  destruct (f x); simpl; [split; discriminate|exact IH].
Qed.

Lemma conserved_init : conserved init_db.
Proof.
  constructor.
  - apply wf_init.
  - intros p loc [].
  - intros p q [].
  - intros z. unfold occupied_in_zone, undelivered_in_zone.
    replace (filter _ (Locations init_db)) with (@nil Location); [reflexivity|].
    symmetry. apply (proj2 (forallb_filter_nil _ _)). vm_compute. reflexivity.
Qed.

Lemma holds_place_new_package db b w le wd h d p l :
  holds_place (new_package db b w le wd h d p l) = true.
Proof. reflexivity. Qed.

Lemma conserved_register db b w le wd h d p :
  conserved db -> conserved (snd (register_package db b w le wd h d p)).
Proof.
  intros Hc.
  destruct (registered_or_not (fst (register_package db b w le wd h d p)))
    as [Hok|Hko]; [|rewrite (register_package_failure _ _ _ _ _ _ _ _ Hko); exact Hc].
  destruct (register_package_Registered _ _ _ _ _ _ _ _ Hok)
    as [loc0 [Hb [Hf [Hlocs Hpk]]]].
  apply find_some in Hf. destruct Hf as [Hin0 Hfree0].
  apply is_free_in_true in Hfree0. destruct Hfree0 as [Hcat0 Hocc0].
  assert (Hwf := cs_wf db Hc).
  assert (Hwf' := wf_register db b w le wd h d p Hwf).
  set (db' := snd (register_package db b w le wd h d p)) in *.
  assert (Hnew : forall q, In q (Packages db) -> holds_place q = true ->
                           p_location_id q = Some (l_location_id loc0) -> False).
  { intros q Hq Hact Hid.
    assert (H := cs_occupied db Hc q loc0 Hq Hact Hin0 Hid). congruence. }
  constructor.
  - exact Hwf'.
  - intros q loc Hq Hact Hloc Hid.
    rewrite Hlocs, set_occupied_map in Hloc. apply in_map_iff in Hloc.
    destruct Hloc as [loc1 [Hg Hin1]].
    destruct (l_location_id loc1 =? l_location_id loc0) eqn:E; subst loc; [reflexivity|].
    rewrite Hpk in Hq. apply in_app_iff in Hq. destruct Hq as [Hq|[<-|[]]].
    + apply (cs_occupied db Hc q loc1 Hq Hact Hin1 Hid).
    + simpl in Hid. injection Hid as Hid. rewrite Hid, Z.eqb_refl in E. discriminate.
  - intros q1 q2 H1 H2 A1 A2 Heq.
    rewrite Hpk in H1, H2. apply in_app_iff in H1, H2.
    destruct H1 as [H1|[<-|[]]], H2 as [H2|[<-|[]]].
    + apply (cs_distinct db Hc); assumption.
    + exfalso. apply (Hnew q1 H1 A1). rewrite Heq. reflexivity.
    + exfalso. apply (Hnew q2 H2 A2). rewrite <- Heq. reflexivity.
    + reflexivity.
  - intros z.
    assert (Ho := occupied_count_set true db db' loc0 z Hwf Hin0 Hocc0 Hlocs).
    cbn iota in Ho. rewrite Ho, (cs_count db Hc z).
    unfold undelivered_in_zone. rewrite Hpk, filter_app, length_app.
    rewrite (filter_ext (fun q => holds_place q && stored_in_zone db' z q)
                        (fun q => holds_place q && stored_in_zone db z q))
      by (intros q; rewrite (stored_in_zone_set_occupied db db' true _ z q Hlocs);
          reflexivity).
    cbn [filter]. rewrite holds_place_new_package.
    rewrite (stored_in_zone_set_occupied db db' true _ z _ Hlocs).
    rewrite (stored_in_zone_at db z (new_package db b w le wd h d p (l_location_id loc0))
                               loc0 Hwf Hin0 eq_refl).
    destruct (String.eqb (l_zone loc0) z); reflexivity.
Qed.

Lemma respects_terminal_holds db b s p :
  respects_terminal db (UpdateStatus b s) = true ->
  In p (Packages db) -> p_barcode p = b -> holds_place p = true.
Proof.
  simpl. intros Ht Hin Hb. apply negb_true_iff in Ht. unfold holds_place.
  destruct (is_delivered (p_status p)) eqn:E; [|reflexivity].
  exfalso. rewrite <- not_true_iff_false in Ht. apply Ht.
  apply existsb_exists. exists p. split; [exact Hin|].
  apply String.eqb_eq in Hb. rewrite Hb, E. reflexivity.
Qed.

Lemma holds_place_with_status s p :
  holds_place (with_status s p) = negb (is_delivered s).
Proof. reflexivity. Qed.

(** Where a row that holds a place after an update comes from. *)
Lemma holds_place_origin ps p s q :
  NoDup (map p_barcode ps) -> In p ps -> holds_place p = true ->
  In q (set_status s (p_barcode p) ps) -> holds_place q = true ->
  exists q0, In q0 ps /\ holds_place q0 = true
             /\ p_location_id q0 = p_location_id q /\ p_barcode q0 = p_barcode q
             /\ (is_delivered s = true -> q0 = q /\ q0 <> p).
Proof.
  intros Hnd Hin Hact Hq Hq_act.
  assert (Hp' : In (with_status s p) (set_status s (p_barcode p) ps))
    by (apply In_with_status; [exact Hin|reflexivity]).
  assert (Hnd' : NoDup (map p_barcode (set_status s (p_barcode p) ps)))
    by (rewrite set_status_barcodes; exact Hnd).
  destruct (In_set_status _ _ _ _ Hq) as [q0 [Hin0 [->|[Hb ->]]]].
  - exists q0. split; [exact Hin0|]. split; [exact Hq_act|].
    split; [reflexivity|]. split; [reflexivity|].
    intros Hs. split; [reflexivity|]. intros E. subst q0.
    assert (Heq : p = with_status s p)
      by (apply (barcode_unique _ _ _ Hnd' Hq Hp'); reflexivity).
    rewrite Heq, holds_place_with_status, Hs in Hq_act. discriminate.
  - assert (q0 = p) by (apply (barcode_unique ps); assumption). subst q0.
    exists p. split; [exact Hin|]. split; [exact Hact|].
    split; [reflexivity|]. split; [reflexivity|].
    intros Hs. rewrite holds_place_with_status, Hs in Hq_act. discriminate.
Qed.

Lemma undelivered_count_split db s p pre post z :
  Packages db = pre ++ p :: post ->
  forall db',
    (forall q, stored_in_zone db' z q = stored_in_zone db z q) ->
    Packages db' = pre ++ with_status s p :: post ->
    (undelivered_in_zone db z
     + (if negb (is_delivered s) && stored_in_zone db z p then 1 else 0)
     = undelivered_in_zone db' z
       + (if holds_place p && stored_in_zone db z p then 1 else 0))%nat.
Proof.
  intros Hp db' Hz Hp'. unfold undelivered_in_zone. rewrite Hp, Hp'.
  rewrite (filter_ext (fun q => holds_place q && stored_in_zone db' z q)
                      (fun q => holds_place q && stored_in_zone db z q))
    by (intros q; rewrite Hz; reflexivity).
  rewrite !filter_app, !length_app. cbn [filter].
  rewrite holds_place_with_status.
  replace (stored_in_zone db z (with_status s p)) with (stored_in_zone db z p)
    by reflexivity.
  destruct (negb (is_delivered s) && stored_in_zone db z p),
           (holds_place p && stored_in_zone db z p); simpl; lia.
Qed.

Lemma conserved_update_package_status db b s :
  conserved db -> respects_terminal db (UpdateStatus b s) = true ->
  conserved (snd (update_package_status db b s)).
Proof.
  intros Hc Ht. assert (Hwf := cs_wf db Hc).
  assert (Hsp := search_package_spec db b Hwf).
  destruct (search_package db b) as [v|] eqn:Hs;
    [|unfold update_package_status; rewrite Hs; exact Hc].
  destruct Hsp as [p [_ [Hin [Hb _]]]].
  assert (Hact := respects_terminal_holds db b s p Ht Hin Hb). subst b. clear Hs Ht v.
  destruct (package_location db p Hwf Hin) as [loc [Hl [Hid _]]].
  assert (Hocc := cs_occupied db Hc p loc Hin Hact Hl Hid).
  assert (Hwf' := wf_update_package_status db (p_barcode p) s Hwf).
  assert (Hnd := wf_barcodes db Hwf).
  destruct (set_status_unique s (Packages db) p Hnd Hin) as [pre [post [Hsplit Hset]]].
  assert (Horig := holds_place_origin (Packages db) p s).
  destruct (is_delivered s) eqn:Es.
  - destruct (update_package_status_delivered db p s _ Hwf Hin Es Hid)
      as [_ [Hlocs Hpk]].
    set (db' := snd (update_package_status db (p_barcode p) s)) in *.
    constructor.
    + exact Hwf'.
    + intros q loc' Hq Hq_act Hloc' Hid'. rewrite Hpk in Hq.
      destruct (Horig q Hnd Hin Hact Hq Hq_act) as [q0 [Hin0 [_ [_ [_ Hd]]]]].
      destruct (Hd eq_refl) as [-> Hne].
      rewrite Hlocs, set_occupied_map in Hloc'. apply in_map_iff in Hloc'.
      destruct Hloc' as [loc1 [Hg Hin1]].
      destruct (l_location_id loc1 =? l_location_id loc) eqn:E; subst loc'.
      * apply Z.eqb_eq in E. exfalso. apply Hne.
        apply (cs_distinct db Hc); try assumption.
        rewrite Hid', Hid. simpl. rewrite E. reflexivity.
      * apply (cs_occupied db Hc q loc1); assumption.
    + intros q1 q2 H1 H2 A1 A2 Heq. rewrite Hpk in H1, H2.
      destruct (Horig q1 Hnd Hin Hact H1 A1) as [q1' [Hin1 [_ [_ [_ Hd1]]]]].
      destruct (Horig q2 Hnd Hin Hact H2 A2) as [q2' [Hin2 [_ [_ [_ Hd2]]]]].
      destruct (Hd1 eq_refl) as [-> _]. destruct (Hd2 eq_refl) as [-> _].
      apply (cs_distinct db Hc); assumption.
    + intros z.
      assert (Ho := occupied_count_set false db db' loc z Hwf Hl Hocc Hlocs).
      cbn iota in Ho.
      assert (Hu := undelivered_count_split db s p pre post z Hsplit db'
                      (fun q => stored_in_zone_set_occupied db db' false _ z q Hlocs)).
      rewrite Hpk, Es, Hact in Hu. specialize (Hu Hset). simpl in Hu.
      rewrite (stored_in_zone_at db z p loc Hwf Hl Hid) in Hu.
      assert (Hcnt := cs_count db Hc z).
      destruct (String.eqb (l_zone loc) z); lia.
  - destruct (update_package_status_kept db p s Hwf Hin Es) as [_ [Hlocs Hpk]].
    set (db' := snd (update_package_status db (p_barcode p) s)) in *.
    constructor.
    + exact Hwf'.
    + intros q loc' Hq Hq_act Hloc' Hid'. rewrite Hpk in Hq. rewrite Hlocs in Hloc'.
      destruct (Horig q Hnd Hin Hact Hq Hq_act) as [q0 [Hin0 [A0 [L0 _]]]].
      apply (cs_occupied db Hc q0 loc'); try assumption. rewrite L0. exact Hid'.
    + intros q1 q2 H1 H2 A1 A2 Heq.
      assert (Hnd' := wf_barcodes db' Hwf').
      apply (barcode_unique _ _ _ Hnd' H1 H2).
      rewrite Hpk in H1, H2.
      destruct (Horig q1 Hnd Hin Hact H1 A1) as [q1' [Hin1 [B1 [L1 [C1 _]]]]].
      destruct (Horig q2 Hnd Hin Hact H2 A2) as [q2' [Hin2 [B2 [L2 [C2 _]]]]].
      rewrite <- C1, <- C2. f_equal.
      apply (cs_distinct db Hc); try assumption. rewrite L1, L2. exact Heq.
    + intros z.
      assert (Hu := undelivered_count_split db s p pre post z Hsplit db'
                      (fun q => stored_in_zone_same db db' z q Hlocs)).
      rewrite Hpk, Es, Hact in Hu. specialize (Hu Hset). simpl in Hu.
      unfold occupied_in_zone at 1. rewrite Hlocs.
      fold (occupied_in_zone db z). rewrite (cs_count db Hc z).
      destruct (stored_in_zone db z p); lia.
Qed.

Lemma conserved_step db op :
  conserved db -> respects_terminal db op = true -> conserved (step db op).
Proof.
  destruct op; simpl step; intros Hc Ht.
  - apply conserved_register, Hc.
  - apply conserved_update_package_status; assumption.
Qed.

Lemma reachable_terminal_conserved db : reachable_terminal db -> conserved db.
Proof.
  induction 1 as [|db op _ IH Ht]; [apply conserved_init|apply conserved_step; assumption].
Qed.

Lemma reachable_terminal_run ops :
  forall db, reachable_terminal db -> run_respects_terminal ops db = true ->
             reachable_terminal (run ops db).
Proof.
  induction ops as [|op ops IH]; simpl; intros db Hr Ht; [exact Hr|].
  apply andb_true_iff in Ht. destruct Ht as [H1 H2].
  apply IH; [constructor; assumption|exact H2].
Qed.

Lemma stored_in_transit_hold_place p :
  In (p_status p) ["Stored"; "InTransit"; "In Transit"] -> holds_place p = true.
Proof.
  unfold holds_place. simpl. intros [<-|[<-|[<-|[]]]]; reflexivity.
Qed.

(** ** One package per location *)

(** C6, as stated, fails: a delivered package whose place was given to a
    new package is stored again, and the two share the location. *)
Lemma stored_packages_share_location :
  ~ (forall (db : DB), reachable db ->
     forall p q, In p (Packages db) -> In q (Packages db) -> p <> q ->
                 In (p_status p) ["Stored"; "InTransit"] ->
                 In (p_status q) ["Stored"; "InTransit"] ->
                 p_location_id p <> p_location_id q).
Proof.
  intros H.
  pose (a := mkPackage 1 "A" 10.0 30.0 20.0 15.0 "Boston, USA" "Standard" 1 (Some 1)
                       "Stored").
  pose (b := mkPackage 2 "B" 10.0 30.0 20.0 15.0 "Boston, USA" "Standard" 1 (Some 1)
                       "Stored").
  assert (Hp : Packages shared_location_db = [a; b]) by (vm_compute; reflexivity).
  apply (H shared_location_db (reachable_run _ _ reach_init) a b).
  - rewrite Hp. left. reflexivity.
  - rewrite Hp. right. left. reflexivity.
  - discriminate.
  - left. reflexivity.
  - left. reflexivity.
  - reflexivity.
Qed.

(** C6, amended.  In every state reached from the seeded database by
    registrations and status updates none of which is applied to a
    package already delivered, no two packages that are not delivered,
    so no two packages with status Stored or InTransit, have the same
    location id. *)
Theorem undelivered_packages_distinct_locations :
  forall (db : DB), reachable_terminal db ->
  forall p q, In p (Packages db) -> In q (Packages db) -> p <> q ->
    (is_delivered (p_status p) = false -> is_delivered (p_status q) = false ->
     p_location_id p <> p_location_id q) /\
    (In (p_status p) ["Stored"; "InTransit"] -> In (p_status q) ["Stored"; "InTransit"] ->
     p_location_id p <> p_location_id q).
Proof.
  intros db Hr p q Hp Hq Hne. apply reachable_terminal_conserved in Hr.
  assert (H : holds_place p = true -> holds_place q = true ->
              p_location_id p <> p_location_id q).
  { intros A1 A2 Heq. apply Hne. apply (cs_distinct db Hr); assumption. }
  split.
  - intros A1 A2. apply H; unfold holds_place; [rewrite A1|rewrite A2]; reflexivity.
  - intros S1 S2. apply H; apply stored_in_transit_hold_place; simpl in *; tauto.
Qed.

Lemma undelivered_packages_distinct_locations_witness :
  p_location_id (mkPackage 2 "B" 10.0 30.0 20.0 15.0 "Boston, USA" "Standard" 1 (Some 2)
                           "InTransit")
  <> p_location_id (mkPackage 3 "C" 10.0 30.0 20.0 15.0 "Boston, USA" "Standard" 1
                              (Some 1) "Stored").
Proof.
  apply (undelivered_packages_distinct_locations terminal_db
           (reachable_terminal_run terminal_ops init_db reach_terminal_init eq_refl)
           (mkPackage 2 "B" 10.0 30.0 20.0 15.0 "Boston, USA" "Standard" 1 (Some 2)
                      "InTransit")
           (mkPackage 3 "C" 10.0 30.0 20.0 15.0 "Boston, USA" "Standard" 1 (Some 1)
                      "Stored")).
  - vm_compute. right. left. reflexivity.
  - vm_compute. right. right. left. reflexivity.
  - discriminate.
  - right. left. reflexivity.
  - left. reflexivity.
Defined.

(** ** Occupancy conservation *)

(** C7, as stated, fails: a delivered package stored again is counted in
    its zone while its location stays free. *)
Lemma reopened_package_breaks_conservation :
  ~ (forall (db : DB), reachable db ->
     forall z, occupied_in_zone db z = undelivered_in_zone db z).
Proof.
  intros H.
  specialize (H reopened_db (reachable_run _ _ reach_init) "A").
  vm_compute in H. discriminate H.
Qed.

(** C7, amended.  In every state reached from the seeded database by
    registrations and status updates none of which is applied to a
    package already delivered, each zone has as many occupied locations
    as packages located in it whose status is not "delivered" (in any
    case of the letters). *)
Theorem occupancy_conservation :
  forall (db : DB), reachable_terminal db ->
  forall z, occupied_in_zone db z = undelivered_in_zone db z.
Proof.
  intros db Hr z. apply reachable_terminal_conserved in Hr. apply (cs_count db Hr).
Qed.

Lemma occupancy_conservation_witness :
  occupied_in_zone terminal_db "A" = undelivered_in_zone terminal_db "A".
Proof.
  apply (occupancy_conservation terminal_db
           (reachable_terminal_run terminal_ops init_db reach_terminal_init eq_refl)).
Defined.

(** * Further properties of the engine *)

(** ** Seeding again *)

Lemma fold_left_fixed {A B : Type} (f : A -> B -> A) (xs : list B) (a : A) :
  (forall x, In x xs -> f a x = a) -> fold_left f xs a = a.
Proof.
  induction xs as [|x xs IH]; simpl; intros H; [reflexivity|].
  rewrite (H x (or_introl eq_refl)). apply IH. intros y Hy. apply H. right. exact Hy.
Qed.

Lemma for_range_fixed n body db :
  (forall i, (1 <= i <= n)%nat -> body db i = db) -> for_range n body db = db.
Proof.
  intros H. unfold for_range. apply fold_left_fixed.
  intros i Hi. apply in_seq in Hi. apply H. lia.
Qed.

Lemma insert_category_ignored db name descr zone max_weight level :
  existsb (fun c => String.eqb (c_category_name c) name) (Categories db) = true ->
  insert_category db (name, descr, zone, max_weight, level) = db.
Proof. intros H. unfold insert_category. rewrite H. reflexivity. Qed.

Lemma insert_location_ignored db cat_id aisle shelf :
  existsb (fun l => String.eqb (l_location_code l) (location_code_for cat_id aisle shelf))
          (Locations db) = true ->
  insert_location db cat_id aisle shelf = db.
Proof.
  intros H. unfold insert_location. cbv zeta.
  unfold location_code_for in H. rewrite H. reflexivity.
Qed.

Lemma existsb_loc_static (f : Location -> bool) locs :
  (forall l, f (loc_static l) = f l) ->
  existsb f (map loc_static locs) = existsb f locs.
Proof.
  intros H. induction locs as [|x xs IH]; simpl; [reflexivity|].
  rewrite H, IH. reflexivity.
Qed.

Lemma seeded_codes_present :
  forallb (fun c =>
    forallb (fun a =>
      forallb (fun s =>
        existsb (fun l => String.eqb (l_location_code l) (location_code_for c a s))
                (Locations init_db))
        (seq 1 4)) (seq 1 5)) (seq 1 5) = true.
Proof. vm_compute. reflexivity. Qed.

Lemma seeded_names_present :
  forallb (fun row =>
             existsb (fun c => String.eqb (c_category_name c) (fst (fst (fst (fst row)))))
                     (Categories init_db)) categories_seed = true.
Proof. vm_compute. reflexivity. Qed.

Lemma populate_initial_data_wf db : wf db -> populate_initial_data db = db.
Proof.
  intros Hwf. unfold populate_initial_data.
  assert (Hc : fold_left insert_category categories_seed db = db).
  { apply fold_left_fixed. intros [[[[name descr] zone] mw] level] Hin.
    apply insert_category_ignored. rewrite (wf_categories db Hwf).
    assert (H := seeded_names_present). rewrite forallb_forall in H.
    apply (H _ Hin). }
  rewrite Hc.
  apply for_range_fixed. intros c Hcr.
  apply for_range_fixed. intros a Har.
  apply for_range_fixed. intros s Hsr.
  apply insert_location_ignored.
  rewrite <- (existsb_loc_static _ (Locations db)) by reflexivity.
  rewrite (wf_locations db Hwf).
  assert (Ic : In c (seq 1 5)) by (apply in_seq; lia).
  assert (Ia : In a (seq 1 5)) by (apply in_seq; lia).
  assert (Is : In s (seq 1 4)) by (apply in_seq; lia).
  assert (H1 := proj1 (forallb_forall _ _) seeded_codes_present c Ic). cbv beta in H1.
  assert (H2 := proj1 (forallb_forall _ _) H1 a Ia). cbv beta in H2.
  exact (proj1 (forallb_forall _ _) H2 s Is).
Qed.

(** X1.  Seeding again changes nothing: on every database that the engine
    can reach, [_populate_initial_data] inserts no category and no
    location, and leaves every row, with its occupancy flag, as it is. *)
Theorem populate_initial_data_idempotent :
  forall (db : DB), reachable db -> populate_initial_data db = db.
Proof. intros db Hr. apply populate_initial_data_wf, reachable_wf, Hr. Qed.

Lemma populate_initial_data_idempotent_witness :
  populate_initial_data heavy_delivered_db = heavy_delivered_db
  /\ populate_initial_data (populate_initial_data empty_db) = populate_initial_data empty_db.
Proof.
  split.
  - apply (populate_initial_data_idempotent heavy_delivered_db).
    apply reachable_run. constructor.
  - apply (populate_initial_data_idempotent (populate_initial_data empty_db)).
    exact reach_init.
Defined.

(** ** Reference data *)

Lemma step_reference_data db op :
  Categories (step db op) = Categories db /\
  map loc_static (Locations (step db op)) = map loc_static (Locations db).
Proof.
  destruct op as [b w le wd h d p|b s]; simpl.
  - register_outcomes l Hf; simpl; auto using loc_static_set_occupied.
  - unfold update_package_status. destruct (search_package db b); simpl; [|auto].
    split; [reflexivity|].
    destruct (is_delivered s); [apply loc_static_release_location|reflexivity].
Qed.

(** X2.  No operation creates, deletes or reorders a category or a
    location, or changes anything of a location but its occupancy flag:
    after any run, from any database, the Categories table is the same
    and the Locations table is the same up to the flags. *)
Theorem reference_data_frame :
  forall (ops : list operation) (db : DB),
    Categories (run ops db) = Categories db /\
    map loc_static (Locations (run ops db)) = map loc_static (Locations db) /\
    List.length (Locations (run ops db)) = List.length (Locations db).
Proof.
  induction ops as [|op ops IH]; intros db; simpl; [auto|].
  destruct (IH (step db op)) as [H1 [H2 _]].
  destruct (step_reference_data db op) as [H3 H4].
  assert (H : map loc_static (Locations (run ops (step db op)))
              = map loc_static (Locations db)) by congruence.
  split; [congruence|]. split; [exact H|].
  apply (f_equal (@List.length _)) in H. rewrite !length_map in H. exact H.
Qed.

Lemma filter_static_length (f : Location -> bool) locs :
  (forall l, f (loc_static l) = f l) ->
  List.length (filter f (map loc_static locs)) = List.length (filter f locs).
Proof.
  intros H. induction locs as [|x xs IH]; simpl; [reflexivity|].
  rewrite H. destruct (f x); simpl; rewrite IH; reflexivity.
Qed.

Lemma init_location_codes_NoDup : NoDup (map l_location_code (Locations init_db)).
Proof.
  assert (H : nodup string_dec (map l_location_code (Locations init_db))
              = map l_location_code (Locations init_db)) by (vm_compute; reflexivity).
  rewrite <- H. apply NoDup_nodup.
Qed.

Lemma init_zone_of_category :
  forallb (fun l => existsb (fun c => (c_category_id c =? l_category_id l)
                                      && String.eqb (c_zone c) (l_zone l))
                            (Categories init_db))
          (Locations init_db) = true.
Proof. vm_compute. reflexivity. Qed.

Lemma zone_of_category db l :
  wf db -> In l (Locations db) ->
  exists c, In c (Categories db) /\ c_category_id c = l_category_id l
            /\ c_zone c = l_zone l.
Proof.
  intros Hwf Hin. apply (static_In db _ (wf_locations db Hwf)) in Hin.
  assert (H := proj1 (forallb_forall _ _) init_zone_of_category _ Hin).
  cbv beta in H. apply existsb_exists in H. destruct H as [c [Hc H]].
  apply andb_true_iff in H. destruct H as [H1 H2].
  apply Z.eqb_eq in H1. apply String.eqb_eq in H2.
  exists c. rewrite (wf_categories db Hwf). auto.
Qed.

(** X3.  The grid of [_populate_initial_data] is there in every reachable
    database: 100 locations, 20 for each of the categories 1 to 5, ids
    and location codes without repetition, and each location in the zone
    of its category. *)
Theorem location_grid :
  forall (db : DB), reachable db ->
    List.length (Locations db) = 100%nat /\
    (forall c, In c [1; 2; 3; 4; 5] ->
               List.length (filter (fun l => l_category_id l =? c) (Locations db)) = 20%nat) /\
    NoDup (map l_location_id (Locations db)) /\
    NoDup (map l_location_code (Locations db)) /\
    (forall l, In l (Locations db) ->
               exists c, In c (Categories db) /\ c_category_id c = l_category_id l
                         /\ c_zone c = l_zone l).
Proof.
  intros db Hr. apply reachable_wf in Hr.
  assert (Hs := wf_locations db Hr).
  split; [|split; [|split; [|split]]].
  - rewrite <- (length_map loc_static), Hs. reflexivity.
  - intros c Hc.
    rewrite <- (filter_static_length (fun l => l_category_id l =? c)) by reflexivity.
    rewrite Hs. simpl in Hc.
    destruct Hc as [<-|[<-|[<-|[<-|[<-|[]]]]]]; vm_compute; reflexivity.
  - apply (location_ids_NoDup db Hr).
  - replace (map l_location_code (Locations db))
      with (map l_location_code (map loc_static (Locations db)))
      by (rewrite map_map; reflexivity).
    rewrite Hs. apply init_location_codes_NoDup.
  - intros l. apply (zone_of_category db l Hr).
Qed.

Lemma location_grid_witness :
  List.length (Locations terminal_db) = 100%nat
  /\ List.length (filter (fun l => l_category_id l =? 4) (Locations terminal_db)) = 20%nat.
Proof.
  destruct (location_grid terminal_db (reachable_run _ _ reach_init)) as [H1 [H2 _]].
  split; [exact H1|]. apply H2. simpl. tauto.
Defined.

(** ** Categories and their names *)

Lemma categorize_package_row w p d :
  exists c, find (fun c => c_category_id c =? fst (categorize_package w p d))
                 (Categories init_db) = Some c
            /\ c_category_name c = snd (categorize_package w p d).
Proof.
  unfold categorize_package.
  destruct (is_express p); [eexists; split; reflexivity|].
  destruct (is_international d); [eexists; split; reflexivity|].
  destruct (PrimFloat.ltb 50 w); [eexists; split; reflexivity|].
  destruct (PrimFloat.ltb w 5); eexists; split; reflexivity.
Qed.

Lemma categorize_package_agrees_with_seed_aux db :
  wf db ->
  forall (w : float) (p d : string),
    exists c, find (fun c => c_category_id c =? fst (categorize_package w p d))
                   (Categories db) = Some c
              /\ In c (Categories db)
              /\ c_category_name c = snd (categorize_package w p d).
Proof.
  intros Hwf w p d. rewrite (wf_categories db Hwf).
  destruct (categorize_package_row w p d) as [c [Hf Hn]].
  exists c. split; [exact Hf|]. split; [|exact Hn].
  apply find_some in Hf. apply Hf.
Qed.

(** X4.  The pair that [categorize_package] returns is a row of the
    seeded Categories table: the id it gives is the id of the category of
    that name, so the name written in the audit note is the name that
    the search and the report read back through the id. *)
Theorem categorize_package_agrees_with_seed :
  forall (db : DB), reachable db ->
  forall (w : float) (p d : string),
    exists c, find (fun c => c_category_id c =? fst (categorize_package w p d))
                   (Categories db) = Some c
              /\ In c (Categories db)
              /\ c_category_name c = snd (categorize_package w p d).
Proof.
  intros db Hr. apply categorize_package_agrees_with_seed_aux, reachable_wf, Hr.
Qed.

Lemma categorize_package_agrees_with_seed_witness :
  exists c, find (fun c => c_category_id c
                           =? fst (categorize_package 75.0 "Standard" "Houston, USA"))
                 (Categories heavy_stored_db) = Some c
            /\ In c (Categories heavy_stored_db)
            /\ c_category_name c = snd (categorize_package 75.0 "Standard" "Houston, USA").
Proof.
  apply (categorize_package_agrees_with_seed heavy_stored_db
           (reachable_run _ _ reach_init) 75.0 "Standard" "Houston, USA").
Defined.

(** ** Letter case *)







(** ** Registration: the outcome *)

Lemma pool_exhausted_false db c :
  pool_exhausted db c = false ->
  exists loc, find (is_free_in c) (Locations db) = Some loc.
Proof.
  intros H. destruct (find (is_free_in c) (Locations db)) as [loc|] eqn:Hf; [eauto|].
  exfalso. rewrite <- not_true_iff_false in H. apply H.
  unfold pool_exhausted. apply forallb_forall. intros loc Hin.
  rewrite (find_none _ _ Hf loc Hin). reflexivity.
Qed.

Lemma nan_free_true w le wd h :
  nan_free w le wd h = true ->
  PrimFloat.is_nan w = false /\ PrimFloat.is_nan le = false
  /\ PrimFloat.is_nan wd = false /\ PrimFloat.is_nan h = false.
Proof.
  unfold nan_free. rewrite !andb_true_iff, !negb_true_iff. tauto.
Qed.

Lemma packages_insert_ok_nan db b w le wd h d p l :
  nan_free w le wd h = false ->
  packages_insert_ok db (new_package db b w le wd h d p l) = false.
Proof.
  unfold nan_free, packages_insert_ok. simpl. intros ->. reflexivity.
Qed.

Lemma register_package_outcome_wf db b w le wd h d p :
  wf db ->
  fst (register_package db b w le wd h d p)
  = (if barcode_exists db b then DuplicateBarcode
     else if pool_exhausted db (fst (categorize_package w p d)) then NoAvailableLocation
     else if nan_free w le wd h then Registered
     else DatabaseError).
Proof.
  intros Hr.
  destruct (barcode_exists db b) eqn:Hb;
    [apply register_package_duplicate_iff; exact Hb|].
  destruct (pool_exhausted db _) eqn:Hp.
  - rewrite register_package_unfold, Hb, (pool_exhausted_find db _ Hp). reflexivity.
  - destruct (pool_exhausted_false db _ Hp) as [loc Hf].
    destruct (nan_free w le wd h) eqn:Hn.
    + destruct (nan_free_true _ _ _ _ Hn) as [H1 [H2 [H3 H4]]].
      apply (register_package_succeeds db b w le wd h d p loc); assumption.
    + assert (Hfa : find_available_location db (fst (categorize_package w p d))
                    = Some (l_location_id loc))
        by (apply find_available_location_Some; eauto).
      apply find_some in Hf. destruct Hf as [Hin _].
      rewrite register_package_unfold, Hb, Hfa.
      destruct (l_location_id loc =? 0) eqn:E0.
      { apply Z.eqb_eq in E0. exfalso. exact (location_id_nonzero db Hr loc Hin E0). }
      rewrite (packages_insert_ok_nan db b w le wd h d p _ Hn). reflexivity.
Qed.

(** X6.  On a reachable database three tests, in this order, decide how
    [register_package] ends: the barcode is already stored (duplicate);
    every location of the category is occupied (no location); one of the
    four dimensions is a NaN (database error, rolled back); otherwise
    the package is registered.  Every outcome but the last returns the
    database unchanged. *)
Theorem register_package_outcome :
  forall (db : DB), reachable db ->
  forall (b : string) (w le wd h : float) (d p : string),
    fst (register_package db b w le wd h d p)
    = (if barcode_exists db b then DuplicateBarcode
       else if pool_exhausted db (fst (categorize_package w p d)) then NoAvailableLocation
       else if nan_free w le wd h then Registered
       else DatabaseError) /\
    (fst (register_package db b w le wd h d p) <> Registered ->
     snd (register_package db b w le wd h d p) = db).
Proof.
  intros db Hr b w le wd h d p. apply reachable_wf in Hr.
  split; [apply register_package_outcome_wf, Hr|apply register_package_failure].
Qed.

Lemma register_package_outcome_witness :
  fst (register_package standard_full_db "P99" 2.5 10.0 8.0 5.0 "Chicago, USA" "Standard")
  = Registered
  /\ fst (register_package standard_full_db "P99" 9.5 10.0 8.0 5.0 "Chicago, USA" "Standard")
     = NoAvailableLocation
  /\ fst (register_package standard_full_db "P99" 2.5 PrimFloat.nan 8.0 5.0
                           "Chicago, USA" "Standard") = DatabaseError.
Proof.
  assert (Hr : reachable standard_full_db) by (apply reachable_run; constructor).
  split; [|split].
  - exact (proj1 (register_package_outcome standard_full_db Hr "P99" 2.5 10.0 8.0 5.0
                                           "Chicago, USA" "Standard")).
  - exact (proj1 (register_package_outcome standard_full_db Hr "P99" 9.5 10.0 8.0 5.0
                                           "Chicago, USA" "Standard")).
  - exact (proj1 (register_package_outcome standard_full_db Hr "P99" 2.5 PrimFloat.nan
                                           8.0 5.0 "Chicago, USA" "Standard")).
Defined.

(** ** Registration: the location given *)

Lemma find_first_lowest (f : Location -> bool) :
  forall locs k n x,
    map l_location_id locs = map Z.of_nat (seq k n) ->
    find f locs = Some x ->
    forall y, In y locs -> f y = true -> l_location_id x <= l_location_id y.
Proof.
  induction locs as [|a rest IH]; intros k n x Hids Hf y Hy Hfy; [destruct Hy|].
  destruct n as [|n]; [discriminate|]. simpl in Hids.
  injection Hids as Ha Hrest. simpl in Hf.
  assert (Hge : forall z, In z rest -> Z.of_nat (S k) <= l_location_id z).
  { intros z Hz. apply (in_map l_location_id) in Hz. rewrite Hrest in Hz.
    apply in_map_iff in Hz. destruct Hz as [m [<- Hm]]. apply in_seq in Hm. lia. }
  destruct (f a) eqn:Efa.
  - injection Hf as <-. destruct Hy as [<-|Hy]; [lia|].
    specialize (Hge y Hy). lia.
  - destruct Hy as [<-|Hy]; [congruence|].
    apply (IH (S k) n x Hrest Hf y Hy Hfy).
Qed.

Lemma init_zone_by_category_id :
  forallb (fun l =>
             match find (fun c => c_category_id c =? l_category_id l) (Categories init_db) with
             | Some c => String.eqb (c_zone c) (l_zone l)
             | None => false
             end) (Locations init_db) = true.
Proof. vm_compute. reflexivity. Qed.

Lemma zone_by_category_id db l c :
  wf db -> In l (Locations db) ->
  find (fun c => c_category_id c =? l_category_id l) (Categories db) = Some c ->
  c_zone c = l_zone l.
Proof.
  intros Hwf Hin Hf. rewrite (wf_categories db Hwf) in Hf.
  apply (static_In db _ (wf_locations db Hwf)) in Hin.
  assert (H := proj1 (forallb_forall _ _) init_zone_by_category_id _ Hin).
  cbv beta in H. change (l_category_id (loc_static l)) with (l_category_id l) in H.
  rewrite Hf in H. apply String.eqb_eq in H. exact H.
Qed.

(** X7.  A successful registration gives the package the free location of
    its category with the smallest id; that location lies in the zone of
    the category; the Locations table changes in the flag of that one
    row, and the Packages table gets one new row at its end, with the
    status Stored. *)
Theorem register_package_allocation :
  forall (db : DB), reachable db ->
  forall (b : string) (w le wd h : float) (d p : string),
    fst (register_package db b w le wd h d p) = Registered ->
    exists pre loc post,
      Locations db = pre ++ loc :: post /\
      Locations (snd (register_package db b w le wd h d p))
      = pre ++ with_occupied true loc :: post /\
      l_is_occupied loc = false /\
      l_category_id loc = fst (categorize_package w p d) /\
      (forall loc', In loc' (Locations db) ->
                    l_category_id loc' = fst (categorize_package w p d) ->
                    l_is_occupied loc' = false ->
                    l_location_id loc <= l_location_id loc') /\
      (exists c, In c (Categories db)
                 /\ c_category_name c = snd (categorize_package w p d)
                 /\ c_zone c = l_zone loc) /\
      Packages (snd (register_package db b w le wd h d p))
      = Packages db ++ [new_package db b w le wd h d p (l_location_id loc)].
Proof.
  intros db Hr b w le wd h d p Hok.
  assert (Hwf := reachable_wf db Hr).
  destruct (register_package_Registered _ _ _ _ _ _ _ _ Hok)
    as [loc [_ [Hf [Hlocs Hpk]]]].
  destruct (find_some _ _ Hf) as [Hin Hfree].
  apply is_free_in_true in Hfree. destruct Hfree as [Hcat Hocc].
  destruct (set_occupied_unique true _ loc (location_ids_NoDup db Hwf) Hin)
    as [pre [post [H1 H2]]].
  exists pre, loc, post.
  split; [exact H1|]. split; [rewrite Hlocs; exact H2|].
  split; [exact Hocc|]. split; [exact Hcat|]. split; [|split; [|exact Hpk]].
  - intros loc' Hin' Hc' Ho'.
    apply (find_first_lowest (is_free_in (fst (categorize_package w p d)))
                             (Locations db) 1%nat 100%nat loc); try assumption.
    + rewrite (location_ids_static db Hwf). apply init_location_ids.
    + apply is_free_in_true. auto.
  - destruct (categorize_package_agrees_with_seed_aux db Hwf w p d) as [c [Hc [Hic Hn]]].
    exists c. split; [exact Hic|]. split; [exact Hn|].
    apply (zone_by_category_id db loc c Hwf Hin). rewrite Hcat. exact Hc.
Qed.

Lemma register_package_allocation_witness :
  exists pre loc post,
    Locations heavy_stored_db = pre ++ loc :: post /\
    Locations (snd (register_package heavy_stored_db "000000000002" 75.0 60.0 50.0 40.0
                                     "Houston, USA" "Standard"))
    = pre ++ with_occupied true loc :: post /\
    l_is_occupied loc = false.
Proof.
  destruct (register_package_allocation heavy_stored_db (reachable_run _ _ reach_init)
              "000000000002" 75.0 60.0 50.0 40.0 "Houston, USA" "Standard" eq_refl)
    as [pre [loc [post [H1 [H2 [H3 _]]]]]].
  exists pre, loc, post. auto.
Defined.

(** ** Search after an operation *)

Lemma location_code_of_set_occupied db db' flag l0 l :
  Locations db' = set_occupied flag l0 (Locations db) ->
  location_code_of db' l = location_code_of db l.
Proof.
  intros H. unfold location_code_of. rewrite H, find_set_occupied.
  destruct (find _ (Locations db)) as [loc|]; [|reflexivity].
  simpl. destruct (l_location_id loc =? l0); reflexivity.
Qed.

Lemma location_code_of_same db db' l :
  Locations db' = Locations db -> location_code_of db' l = location_code_of db l.
Proof. intros H. unfold location_code_of. rewrite H. reflexivity. Qed.

(** No operation changes the code that an id stands for. *)
Lemma step_location_code db op l :
  location_code_of (step db op) l = location_code_of db l.
Proof.
  destruct op as [b w le wd h d p|b s]; simpl.
  - register_outcomes l0 Hf; simpl; try reflexivity.
    apply (location_code_of_set_occupied db _ true l0). reflexivity.
  - unfold update_package_status. destruct (search_package db b); [|reflexivity].
    simpl. destruct (is_delivered s); [|reflexivity].
    unfold release_location.
    destruct (find _ (set_status s b (Packages db))) as [q|]; [|reflexivity].
    destruct (p_location_id q) as [l0|]; [|reflexivity].
    apply (location_code_of_set_occupied db _ false l0). reflexivity.
Qed.

Lemma joined_ext db db' p :
  Categories db' = Categories db ->
  (forall l, location_code_of db' l = location_code_of db l) ->
  joined db' p = joined db p.
Proof.
  intros Hc Hl. unfold joined. rewrite Hc.
  destruct (find _ (Categories db)); [|reflexivity].
  destruct (p_location_id p); [rewrite Hl|]; reflexivity.
Qed.

Lemma first_row_ext db db' b ps :
  Categories db' = Categories db ->
  (forall l, location_code_of db' l = location_code_of db l) ->
  first_row db' b ps = first_row db b ps.
Proof.
  intros Hc Hl. induction ps as [|p ps IH]; simpl; [reflexivity|].
  rewrite (joined_ext db db' p Hc Hl), IH. reflexivity.
Qed.

Lemma first_row_app db b ps qs :
  first_row db b (ps ++ qs)
  = match first_row db b ps with Some v => Some v | None => first_row db b qs end.
Proof.
  induction ps as [|p ps IH]; simpl; [reflexivity|].
  destruct (String.eqb (p_barcode p) b); [|exact IH].
  destruct (joined db p); [reflexivity|exact IH].
Qed.

Lemma first_row_absent db b ps :
  ~ In b (map p_barcode ps) -> first_row db b ps = None.
Proof.
  induction ps as [|p ps IH]; simpl; intros H; [reflexivity|].
  destruct (String.eqb (p_barcode p) b) eqn:E.
  - apply String.eqb_eq in E. tauto.
  - apply IH. tauto.
Qed.

Lemma first_row_set_status_other db s b b' ps :
  b <> b' -> first_row db b' (set_status s b ps) = first_row db b' ps.
Proof.
  intros Hne. rewrite set_status_map.
  induction ps as [|p ps IH]; cbn [map first_row]; [reflexivity|].
  destruct (String.eqb (p_barcode p) b) eqn:E.
  - apply String.eqb_eq in E.
    replace (String.eqb (p_barcode (with_status s p)) b') with false
      by (symmetry; apply String.eqb_neq; simpl; congruence).
    replace (String.eqb (p_barcode p) b') with false
      by (symmetry; apply String.eqb_neq; congruence).
    exact IH.
  - rewrite IH. reflexivity.
Qed.

Lemma joined_with_status db s p :
  joined db (with_status s p) = option_map (view_with_status s) (joined db p).
Proof.
  unfold joined. simpl. destruct (find _ (Categories db)); reflexivity.
Qed.

Lemma first_row_set_status_same db s b ps :
  first_row db b (set_status s b ps) = option_map (view_with_status s) (first_row db b ps).
Proof.
  rewrite set_status_map.
  induction ps as [|p ps IH]; cbn [map first_row]; [reflexivity|].
  destruct (String.eqb (p_barcode p) b) eqn:E.
  - change (p_barcode (with_status s p)) with (p_barcode p). rewrite E.
    rewrite joined_with_status. destruct (joined db p); [reflexivity|exact IH].
  - rewrite E. exact IH.
Qed.

(** X8.  What is registered is found: after a successful registration the
    search by the barcode answers with the new package id, the status
    Stored, the name of the category and the code of the location that
    was the first free one of the category. *)
Theorem register_then_search :
  forall (db : DB), reachable db ->
  forall (b : string) (w le wd h : float) (d p : string),
    fst (register_package db b w le wd h d p) = Registered ->
    exists loc,
      find (is_free_in (fst (categorize_package w p d))) (Locations db) = Some loc /\
      search_package (snd (register_package db b w le wd h d p)) b
      = Some (mkPackageView (next_rowid p_package_id (Packages db)) b "Stored"
                            (snd (categorize_package w p d))
                            (Some (l_location_code loc))).
Proof.
  intros db Hr b w le wd h d p Hok.
  assert (Hwf := reachable_wf db Hr).
  destruct (register_package_Registered _ _ _ _ _ _ _ _ Hok)
    as [loc [Hb [Hf [Hlocs Hpk]]]].
  exists loc. split; [exact Hf|].
  apply find_some in Hf. destruct Hf as [Hin _].
  set (db' := snd (register_package db b w le wd h d p)) in *.
  assert (Hc : Categories db' = Categories db)
    by apply (step_reference_data db (Register b w le wd h d p)).
  assert (Hl : forall l, location_code_of db' l = location_code_of db l)
    by (intros l; apply (location_code_of_set_occupied db db' true _ l Hlocs)).
  unfold search_package. rewrite Hpk, first_row_app.
  rewrite (first_row_absent db' b (Packages db)) by (apply barcode_exists_false; exact Hb).
  cbn [first_row new_package p_barcode]. rewrite String.eqb_refl.
  rewrite (joined_ext db db' _ Hc Hl). unfold joined, new_package.
  cbn [p_category_id p_location_id p_package_id p_barcode p_status].
  destruct (categorize_package_agrees_with_seed_aux db Hwf w p d) as [c [Hfc [_ Hn]]].
  rewrite Hfc. unfold location_code_of.
  rewrite (find_location_unique _ loc (location_ids_NoDup db Hwf) Hin).
  simpl. rewrite Hn. reflexivity.
Qed.

Lemma register_then_search_witness :
  exists loc,
    find (is_free_in (fst (categorize_package 60.0 "Standard" "Houston, USA")))
         (Locations init_db) = Some loc /\
    search_package heavy_stored_db "000000000001"
    = Some (mkPackageView 1 "000000000001" "Stored" "Heavy" (Some (l_location_code loc))).
Proof.
  apply (register_then_search init_db reach_init "000000000001" 60.0 60.0 50.0 40.0
                              "Houston, USA" "Standard" eq_refl).
Defined.

Lemma search_after_update db b s :
  search_package (snd (update_package_status db b s)) b
  = option_map (view_with_status s) (search_package db b).
Proof.
  assert (Hc := proj1 (step_reference_data db (UpdateStatus b s))).
  assert (Hl := step_location_code db (UpdateStatus b s)). simpl in Hc, Hl.
  unfold search_package at 1.
  rewrite (first_row_ext db _ b _ Hc Hl).
  unfold update_package_status.
  destruct (search_package db b) as [v|] eqn:Hs; simpl.
  - rewrite first_row_set_status_same. fold (search_package db b). rewrite Hs. reflexivity.
  - exact Hs.
Qed.

(** X9.  After [update_package_status] the search by the same barcode
    answers as before but for the status, which is the new one; the
    location code is still shown when the new status is Delivered.  This
    holds on every database, and for an unknown barcode both searches
    find nothing. *)
Theorem update_then_search :
  forall (db : DB) (b s : string),
    search_package (snd (update_package_status db b s)) b
    = option_map (view_with_status s) (search_package db b).
Proof. exact search_after_update. Qed.

(** X10.  An operation on one barcode does not change what the search
    answers for another barcode, on any database. *)
Theorem search_package_frame :
  forall (db : DB) (op : operation) (b' : string),
    op_barcode op <> b' ->
    search_package (step db op) b' = search_package db b'.
Proof.
  intros db op b' Hne.
  assert (Hc := proj1 (step_reference_data db op)).
  assert (Hl := step_location_code db op).
  unfold search_package. rewrite (first_row_ext db _ b' _ Hc Hl).
  destruct op as [b w le wd h d p|b s]; simpl in *.
  - register_outcomes l Hf; simpl; try reflexivity.
    rewrite first_row_app. destruct (first_row db b' (Packages db)); [reflexivity|].
    cbn [first_row new_package p_barcode].
    apply String.eqb_neq in Hne. rewrite Hne. reflexivity.
  - unfold update_package_status. destruct (search_package db b); [|reflexivity].
    simpl. apply first_row_set_status_other. exact Hne.
Qed.

Lemma search_package_frame_witness :
  search_package (step heavy_stored_db (UpdateStatus "000000000001" "Delivered"))
                 "000000000002"
  = search_package heavy_stored_db "000000000002".
Proof.
  apply (search_package_frame heavy_stored_db (UpdateStatus "000000000001" "Delivered")
                              "000000000002").
  discriminate.
Defined.

(** ** History *)

Lemma step_audit_trail db op :
  exists added, AuditTrail (step db op) = AuditTrail db ++ added
                /\ (List.length added <= 1)%nat.
Proof.
  destruct op as [b w le wd h d p|b s]; simpl.
  - register_outcomes l Hf; simpl;
      try (exists []; rewrite app_nil_r; split; [reflexivity|simpl; lia]).
    eexists. split; [reflexivity|simpl; lia].
  - unfold update_package_status. destruct (search_package db b); simpl.
    + eexists. split; [reflexivity|simpl; lia].
    + exists []. rewrite app_nil_r. split; [reflexivity|simpl; lia].
Qed.

(** X11.  The audit trail only grows: after any run, from any database,
    the entries that were there are still there, unchanged and in the
    same order, before the new ones, and there is at most one new entry
    for each operation. *)
Theorem audit_trail_append_only :
  forall (ops : list operation) (db : DB),
    exists added,
      AuditTrail (run ops db) = AuditTrail db ++ added
      /\ (List.length added <= List.length ops)%nat.
Proof.
  induction ops as [|op ops IH]; intros db; simpl.
  - exists []. rewrite app_nil_r. split; [reflexivity|simpl; lia].
  - destruct (IH (step db op)) as [added2 [H2 L2]].
    destruct (step_audit_trail db op) as [added1 [H1 L1]].
    exists (added1 ++ added2). rewrite H2, H1, app_assoc, length_app.
    split; [reflexivity|lia].
Qed.

Lemma step_packages db op :
  exists added,
    map (with_status "") (Packages (step db op))
    = map (with_status "") (Packages db) ++ added
    /\ (List.length added <= 1)%nat.
Proof.
  destruct op as [b w le wd h d p|b s]; simpl.
  - register_outcomes l Hf; simpl;
      try (exists []; rewrite app_nil_r; split; [reflexivity|simpl; lia]).
    eexists. rewrite map_app. split; [reflexivity|simpl; lia].
  - exists []. rewrite app_nil_r. split; [|simpl; lia].
    unfold update_package_status. destruct (search_package db b); simpl; [|reflexivity].
    rewrite set_status_map, map_map. apply map_ext.
    intros q. destruct (String.eqb (p_barcode q) b); reflexivity.
Qed.

(** X12.  No package row is ever deleted or moved, and of a row that is
    there only the status ever changes: after any run, from any
    database, the Packages table with the statuses blanked starts with
    the old one, and has at most one more row for each operation. *)
Theorem packages_persist :
  forall (ops : list operation) (db : DB),
    exists added,
      map (with_status "") (Packages (run ops db))
      = map (with_status "") (Packages db) ++ added
      /\ (List.length added <= List.length ops)%nat.
Proof.
  induction ops as [|op ops IH]; intros db; simpl.
  - exists []. rewrite app_nil_r. split; [reflexivity|simpl; lia].
  - destruct (IH (step db op)) as [added2 [H2 L2]].
    destruct (step_packages db op) as [added1 [H1 L1]].
    exists (added1 ++ added2). rewrite H2, H1, app_assoc, length_app.
    split; [reflexivity|lia].
Qed.

(** ** Keys *)

Lemma max_of_seq n :
  forall k, fold_right Z.max 0 (map Z.of_nat (seq k n))
            = match n with O => 0 | S m => Z.of_nat (k + m) end.
Proof.
  induction n as [|n IH]; intros k; simpl; [reflexivity|].
  rewrite IH. destruct n; lia.
Qed.

Lemma next_rowid_seq {A : Type} (key : A -> Z) (rows : list A) :
  map key rows = map Z.of_nat (seq 1 (List.length rows)) ->
  next_rowid key rows = Z.of_nat (S (List.length rows)).
Proof.
  intros H. unfold next_rowid. rewrite H, max_of_seq.
  destruct (List.length rows); lia.
Qed.

Lemma keys_snoc {A : Type} (key : A -> Z) (rows : list A) (row : A) :
  map key rows = map Z.of_nat (seq 1 (List.length rows)) ->
  key row = next_rowid key rows ->
  map key (rows ++ [row]) = map Z.of_nat (seq 1 (List.length (rows ++ [row]))).
Proof.
  intros H Hk. rewrite (next_rowid_seq key rows H) in Hk.
  rewrite length_app, map_app. simpl List.length.
  rewrite Nat.add_1_r, seq_S, map_app, H. simpl. rewrite Hk. reflexivity.
Qed.

Lemma first_row_Some db b ps v :
  first_row db b ps = Some v ->
  exists p, In p ps /\ p_barcode p = b /\ v_package_id v = p_package_id p
            /\ v_status v = p_status p.
Proof.
  induction ps as [|p ps IH]; simpl; [discriminate|].
  destruct (String.eqb (p_barcode p) b) eqn:E.
  - unfold joined at 1.
    destruct (find _ (Categories db)) as [c|].
    + intros H. injection H as <-. apply String.eqb_eq in E. exists p. simpl. auto.
    + intros H. destruct (IH H) as [q Hq]. exists q. tauto.
  - intros H. destruct (IH H) as [q Hq]. exists q. tauto.
Qed.

Lemma set_status_package_ids s b ps :
  map p_package_id (set_status s b ps) = map p_package_id ps.
Proof.
  rewrite set_status_map, map_map. apply map_ext.
  intros p. destruct (String.eqb (p_barcode p) b); reflexivity.
Qed.

Lemma keys_ok_audit_snoc (ps ps' : list Package) (au : list AuditEntry) (e : AuditEntry) :
  (forall x, In x au -> exists p, In p ps /\ p_package_id p = a_package_id x) ->
  (forall i, In i (map p_package_id ps) -> In i (map p_package_id ps')) ->
  In (a_package_id e) (map p_package_id ps') ->
  forall x, In x (au ++ [e]) -> exists p, In p ps' /\ p_package_id p = a_package_id x.
Proof.
  intros Hau Hsub He x Hx.
  assert (H : In (a_package_id x) (map p_package_id ps')).
  { apply in_app_iff in Hx. destruct Hx as [Hx|[<-|[]]]; [|exact He].
    destruct (Hau x Hx) as [p [Hp <-]]. apply Hsub, in_map, Hp. }
  apply in_map_iff in H. destruct H as [p [H1 H2]]. eauto.
Qed.

Lemma keys_ok_step db op : keys_ok db -> keys_ok (step db op).
Proof.
  intros [Hp Ha Hf]. destruct op as [b w le wd h d p|b s]; simpl.
  - register_outcomes l Hl; simpl; try (constructor; assumption).
    constructor; simpl.
    + apply keys_snoc; [exact Hp|reflexivity].
    + apply keys_snoc; [exact Ha|reflexivity].
    + apply (keys_ok_audit_snoc (Packages db)); [exact Hf| |].
      * intros i Hi. rewrite map_app. apply in_or_app. left. exact Hi.
      * rewrite map_app. apply in_or_app. right. left. reflexivity.
  - unfold update_package_status.
    destruct (search_package db b) as [v|] eqn:Hs; [|constructor; assumption].
    constructor; simpl.
    + rewrite set_status_package_ids. unfold set_status. rewrite length_map. exact Hp.
    + apply keys_snoc; [exact Ha|reflexivity].
    + apply (keys_ok_audit_snoc (Packages db)); [exact Hf| |].
      * intros i Hi. rewrite set_status_package_ids. exact Hi.
      * rewrite set_status_package_ids. simpl.
        destruct (first_row_Some _ _ _ _ Hs) as [q [Hq [_ [Hid _]]]].
        rewrite Hid. apply in_map. exact Hq.
Qed.

Lemma reachable_keys_ok db : reachable db -> keys_ok db.
Proof.
  induction 1 as [|db op _ IH]; [|apply keys_ok_step, IH].
  constructor; try reflexivity. intros e [].
Qed.

(** X13.  The keys of every reachable database are sound.  The package
    ids are 1, 2, ... in the order of registration and the audit ids 1,
    2, ... in the order of the entries; every audit entry names the id
    of a stored package, every package the id of a seeded category and
    the id of a location of that category. *)
Theorem keys_sound :
  forall (db : DB), reachable db ->
    map p_package_id (Packages db) = map Z.of_nat (seq 1 (List.length (Packages db))) /\
    map a_audit_id (AuditTrail db) = map Z.of_nat (seq 1 (List.length (AuditTrail db))) /\
    (forall e, In e (AuditTrail db) ->
               exists p, In p (Packages db) /\ p_package_id p = a_package_id e) /\
    (forall p, In p (Packages db) ->
               (exists c, In c (Categories db) /\ c_category_id c = p_category_id p) /\
               (exists loc, In loc (Locations db)
                            /\ p_location_id p = Some (l_location_id loc)
                            /\ l_category_id loc = p_category_id p)).
Proof.
  intros db Hr. destruct (reachable_keys_ok db Hr) as [H1 H2 H3].
  apply reachable_wf in Hr.
  split; [exact H1|]. split; [exact H2|]. split; [exact H3|].
  intros p Hin. split; [|apply (package_location db p Hr Hin)].
  destruct (category_found _ (proj1 (wf_packages db Hr p Hin))) as [c Hc].
  apply find_some in Hc. destruct Hc as [Hc1 Hc2]. apply Z.eqb_eq in Hc2.
  exists c. rewrite (wf_categories db Hr). auto.
Qed.

Lemma keys_sound_witness :
  map p_package_id (Packages terminal_db) = [1; 2; 3]
  /\ map a_audit_id (AuditTrail terminal_db) = [1; 2; 3; 4; 5].
Proof.
  destruct (keys_sound terminal_db (reachable_run _ _ reach_init)) as [H1 [H2 _]].
  split; [exact H1|exact H2].
Defined.

(** ** Delivery: the rows it writes *)

(** X14.  A delivery changes the flag of one location, the one of the
    package, and the status of one package; every other row of the two
    tables is as before, and so are the other columns of the two rows. *)
Theorem deliver_frame :
  forall (db : DB), reachable db ->
  forall (p : Package) (s : string),
    In p (Packages db) -> is_delivered s = true ->
    exists pre loc post before after,
      p_location_id p = Some (l_location_id loc) /\
      Locations db = pre ++ loc :: post /\
      Locations (snd (update_package_status db (p_barcode p) s))
      = pre ++ with_occupied false loc :: post /\
      Packages db = before ++ p :: after /\
      Packages (snd (update_package_status db (p_barcode p) s))
      = before ++ with_status s p :: after.
Proof.
  intros db Hr p s Hin Hs. apply reachable_wf in Hr.
  destruct (package_location db p Hr Hin) as [loc [Hl [Hid _]]].
  destruct (update_package_status_delivered db p s _ Hr Hin Hs Hid) as [_ [Hlocs Hpk]].
  destruct (set_occupied_unique false _ loc (location_ids_NoDup db Hr) Hl)
    as [pre [post [H1 H2]]].
  destruct (set_status_unique s _ p (wf_barcodes db Hr) Hin) as [before [after [H3 H4]]].
  exists pre, loc, post, before, after.
  rewrite Hlocs, Hpk. auto.
Qed.

Lemma deliver_frame_witness :
  exists pre loc post before after,
    p_location_id heavy_package = Some (l_location_id loc) /\
    Locations heavy_stored_db = pre ++ loc :: post /\
    Locations (snd (update_package_status heavy_stored_db "000000000001" "DELIVERED"))
    = pre ++ with_occupied false loc :: post /\
    Packages heavy_stored_db = before ++ heavy_package :: after /\
    Packages (snd (update_package_status heavy_stored_db "000000000001" "DELIVERED"))
    = before ++ with_status "DELIVERED" heavy_package :: after.
Proof.
  apply (deliver_frame heavy_stored_db (reachable_run _ _ reach_init)
                       heavy_package "DELIVERED").
  - vm_compute. left. reflexivity.
  - reflexivity.
Defined.

Lemma with_occupied_same flag loc :
  l_is_occupied loc = flag -> with_occupied flag loc = loc.
Proof. intros <-. destruct loc. reflexivity. Qed.

Lemma set_occupied_twice f1 f2 l locs :
  set_occupied f2 l (set_occupied f1 l locs) = set_occupied f2 l locs.
Proof.
  rewrite !set_occupied_map, map_map. apply map_ext. intros loc.
  destruct (l_location_id loc =? l) eqn:E; [|rewrite E; reflexivity].
  simpl. rewrite E. reflexivity.
Qed.

Lemma set_occupied_same flag loc locs :
  NoDup (map l_location_id locs) -> In loc locs -> l_is_occupied loc = flag ->
  set_occupied flag (l_location_id loc) locs = locs.
Proof.
  intros Hnd Hin Hf.
  destruct (set_occupied_unique flag locs loc Hnd Hin) as [pre [post [H1 H2]]].
  rewrite H2, (with_occupied_same flag loc Hf). symmetry. exact H1.
Qed.

(** X15.  A registration followed by the delivery of the same package
    gives every location back its flag: the Locations table is again
    the one before the registration. *)
Theorem register_then_deliver :
  forall (db : DB), reachable db ->
  forall (b : string) (w le wd h : float) (d p s : string),
    fst (register_package db b w le wd h d p) = Registered ->
    is_delivered s = true ->
    Locations (snd (update_package_status (snd (register_package db b w le wd h d p)) b s))
    = Locations db.
Proof.
  intros db Hr b w le wd h d p s Hok Hs.
  assert (Hwf := reachable_wf db Hr).
  assert (Hwf' := wf_register db b w le wd h d p Hwf).
  destruct (register_package_Registered _ _ _ _ _ _ _ _ Hok)
    as [loc [_ [Hf [Hlocs Hpk]]]].
  apply find_some in Hf. destruct Hf as [Hin Hfree].
  apply is_free_in_true in Hfree. destruct Hfree as [_ Hocc].
  set (q := new_package db b w le wd h d p (l_location_id loc)) in *.
  assert (Hq : In q (Packages (snd (register_package db b w le wd h d p))))
    by (rewrite Hpk; apply in_or_app; right; left; reflexivity).
  destruct (update_package_status_delivered _ q s (l_location_id loc) Hwf' Hq Hs eq_refl)
    as [_ [H _]].
  change (p_barcode q) with b in H.
  rewrite H, Hlocs, set_occupied_twice.
  apply set_occupied_same; [apply (location_ids_NoDup db Hwf)|exact Hin|exact Hocc].
Qed.

Lemma register_then_deliver_witness :
  Locations heavy_delivered_db = Locations init_db.
Proof.
  apply (register_then_deliver init_db reach_init "000000000001" 60.0 60.0 50.0 40.0
                               "Houston, USA" "Standard" "Delivered"); reflexivity.
Defined.

(** ** Status updates in a row *)

Lemma set_status_twice s1 s2 b ps :
  set_status s2 b (set_status s1 b ps) = set_status s2 b ps.
Proof.
  rewrite !set_status_map, map_map. apply map_ext. intros p.
  destruct (String.eqb (p_barcode p) b) eqn:E; [|rewrite E; reflexivity].
  simpl. rewrite E. reflexivity.
Qed.

Lemma update_package_status_Some db b s v :
  search_package db b = Some v ->
  update_package_status db b s
  = (Updated,
     mkDB (Categories db)
          (if is_delivered s
           then release_location b (set_status s b (Packages db)) (Locations db)
           else Locations db)
          (set_status s b (Packages db))
          (AuditTrail db ++
             [mkAuditEntry (next_rowid a_audit_id (AuditTrail db)) (v_package_id v)
                           "STATUS_UPDATE" (Some (v_status v)) (Some s) None None
                           ("Status changed from " ++ v_status v ++ " to " ++ s)%string])).
Proof. intros H. unfold update_package_status. rewrite H. reflexivity. Qed.

Lemma update_package_status_None db b s :
  search_package db b = None -> update_package_status db b s = (PackageNotFound, db).
Proof. intros H. unfold update_package_status. rewrite H. reflexivity. Qed.

(** X16.  Of two status updates of the same barcode the last one decides:
    the Packages table is the one that the second update alone gives,
    and the audit trail has an entry for each when the barcode is known,
    the second with the first status as the old one.  This holds on
    every database. *)
Theorem update_twice :
  forall (db : DB) (b s1 s2 : string),
    Packages (snd (update_package_status (snd (update_package_status db b s1)) b s2))
    = Packages (snd (update_package_status db b s2)) /\
    (forall v, search_package db b = Some v ->
       exists e1 e2,
         AuditTrail (snd (update_package_status (snd (update_package_status db b s1)) b s2))
         = AuditTrail db ++ [e1; e2]
         /\ a_old_status e1 = Some (v_status v) /\ a_new_status e1 = Some s1
         /\ a_old_status e2 = Some s1 /\ a_new_status e2 = Some s2).
Proof.
  intros db b s1 s2.
  assert (H := search_after_update db b s1).
  destruct (search_package db b) as [v|] eqn:Hv.
  - simpl in H.
    rewrite (update_package_status_Some _ b s2 _ H).
    rewrite (update_package_status_Some db b s1 v Hv).
    rewrite (update_package_status_Some db b s2 v Hv).
    cbn [snd Packages AuditTrail]. split; [apply set_status_twice|].
    intros v' Hv'. injection Hv' as <-.
    eexists. eexists. rewrite <- app_assoc. simpl. split; [reflexivity|]. simpl. auto.
  - rewrite (update_package_status_None db b s1 Hv). cbn [snd].
    split; [reflexivity|discriminate].
Qed.

Lemma update_twice_witness :
  exists e1 e2,
    AuditTrail (snd (update_package_status
                       (snd (update_package_status heavy_stored_db "000000000001"
                                                   "In Transit"))
                       "000000000001" "Delivered"))
    = AuditTrail heavy_stored_db ++ [e1; e2]
    /\ a_old_status e1 = Some "Stored" /\ a_new_status e1 = Some "In Transit"
    /\ a_old_status e2 = Some "In Transit" /\ a_new_status e2 = Some "Delivered".
Proof.
  apply (proj2 (update_twice heavy_stored_db "000000000001" "In Transit" "Delivered")
               (mkPackageView 1 "000000000001" "Stored" "Heavy" (Some "D01-01"))).
  reflexivity.
Defined.

(** ** The summary report *)

Lemma insert_by_count_perm row rows : Permutation (insert_by_count row rows) (row :: rows).
Proof.
  induction rows as [|r rs IH]; simpl; [apply Permutation_refl|].
  destruct (snd r <=? snd row)%nat; [apply Permutation_refl|].
  apply perm_trans with (r :: row :: rs); [apply perm_skip, IH|apply perm_swap].
Qed.

Lemma order_by_count_desc_perm rows : Permutation (order_by_count_desc rows) rows.
Proof.
  induction rows as [|r rs IH]; simpl; [apply perm_nil|].
  apply perm_trans with (r :: order_by_count_desc rs);
    [apply insert_by_count_perm|apply perm_skip, IH].
Qed.

Lemma insert_by_count_sorted row rows :
  Sorted count_ge rows -> Sorted count_ge (insert_by_count row rows).
Proof.
  induction rows as [|r rs IH]; simpl; intros Hs.
  - constructor; constructor.
  - destruct (snd r <=? snd row)%nat eqn:E.
    + apply Nat.leb_le in E. constructor; [exact Hs|]. constructor. exact E.
    + apply Nat.leb_gt in E. inversion Hs as [|? ? Hrs Hhd]; subst.
      constructor; [apply IH, Hrs|].
      destruct rs as [|r' rs']; simpl.
      * constructor. unfold count_ge. lia.
      * destruct (snd r' <=? snd row)%nat.
        -- constructor. unfold count_ge. lia.
        -- inversion Hhd; subst. constructor. assumption.
Qed.

Lemma order_by_count_desc_sorted rows : Sorted count_ge (order_by_count_desc rows).
Proof.
  induction rows as [|r rs IH]; simpl; [constructor|].
  apply insert_by_count_sorted, IH.
Qed.

Lemma total_count_perm rows rows' :
  Permutation rows rows' -> total_count rows = total_count rows'.
Proof.
  induction 1; simpl; lia.
Qed.

Lemma packages_by_seeded_category ps :
  (forall p, In p ps -> In (p_category_id p) [1; 2; 3; 4; 5]) ->
  (List.length (filter (fun p => (p_category_id p =? 1)%Z) ps)
   + (List.length (filter (fun p => (p_category_id p =? 2)%Z) ps)
      + (List.length (filter (fun p => (p_category_id p =? 3)%Z) ps)
         + (List.length (filter (fun p => (p_category_id p =? 4)%Z) ps)
            + (List.length (filter (fun p => (p_category_id p =? 5)%Z) ps) + 0)))))%nat
  = List.length ps.
Proof.
  induction ps as [|p ps IH]; intros H; [reflexivity|].
  assert (IH' := IH (fun q Hq => H q (or_intror Hq))).
  assert (Hp := H p (or_introl eq_refl)). cbn [filter].
  simpl in Hp. destruct Hp as [E|[E|[E|[E|[E|[]]]]]]; rewrite <- E; simpl; lia.
Qed.

(** X17.  The first table of the report has one row for each of the five
    seeded categories, also for those without a package; the rows come
    by decreasing count, and the counts add up to the number of
    packages. *)
Theorem by_category_complete :
  forall (db : DB), reachable db ->
    Permutation (map fst (r_by_category (get_summary_report db)))
                ["Standard"; "Express"; "Fragile"; "Heavy"; "International"] /\
    Sorted count_ge (r_by_category (get_summary_report db)) /\
    total_count (r_by_category (get_summary_report db)) = List.length (Packages db) /\
    (forall c, In c (Categories db) ->
               In (c_category_name c, packages_of_category db c)
                  (r_by_category (get_summary_report db))).
Proof.
  intros db Hr. apply reachable_wf in Hr. cbn [get_summary_report r_by_category].
  unfold by_category.
  set (rows := map (fun c => (c_category_name c, packages_of_category db c))
                   (Categories db)).
  assert (Hperm := order_by_count_desc_perm rows).
  split; [|split; [|split]].
  - apply perm_trans with (map fst rows); [apply Permutation_map, Hperm|].
    unfold rows. rewrite map_map. cbn [fst]. rewrite (wf_categories db Hr).
    apply Permutation_refl.
  - apply order_by_count_desc_sorted.
  - rewrite (total_count_perm _ _ Hperm). unfold rows.
    rewrite (wf_categories db Hr). cbn [map Categories init_db total_count fold_right snd].
    unfold packages_of_category. cbn [c_category_id].
    apply packages_by_seeded_category. intros p Hp. apply (wf_packages db Hr p Hp).
  - intros c Hc. apply (Permutation_in _ (Permutation_sym Hperm)).
    unfold rows. apply (in_map (fun c => (c_category_name c, packages_of_category db c))).
    exact Hc.
Qed.

Lemma by_category_complete_witness :
  total_count (r_by_category (get_summary_report terminal_db)) = 3%nat
  /\ Sorted count_ge (r_by_category (get_summary_report terminal_db)).
Proof.
  destruct (by_category_complete terminal_db (reachable_run _ _ reach_init))
    as [_ [H1 [H2 _]]].
  split; [exact H2|exact H1].
Defined.

Lemma count_of_key (x : string) (ks : list string) :
  NoDup ks ->
  List.length (filter (fun k => String.eqb x k) ks)
  = if in_dec string_dec x ks then 1%nat else 0%nat.
Proof.
  induction ks as [|k ks IH]; intros Hnd; simpl; [reflexivity|].
  inversion Hnd as [|? ? Hk Hnd']; subst. specialize (IH Hnd').
  destruct (String.eqb x k) eqn:E.
  - apply String.eqb_eq in E. subst k. simpl. rewrite IH.
    destruct (string_dec x x) as [He|Hn]; [|congruence].
    destruct (in_dec string_dec x ks); [contradiction|reflexivity].
  - apply String.eqb_neq in E. rewrite IH.
    destruct (string_dec k x) as [He|Hn]; [congruence|].
    destruct (in_dec string_dec x ks); reflexivity.
Qed.

Lemma group_counts_cons (f : Package -> string) (p : Package) (ps : list Package)
      (ks : list string) :
  fold_right (fun k acc =>
                (List.length (filter (fun q => String.eqb (f q) k) (p :: ps)) + acc)%nat)
             0%nat ks
  = (fold_right (fun k acc =>
                   (List.length (filter (fun q => String.eqb (f q) k) ps) + acc)%nat)
                0%nat ks
     + List.length (filter (fun k => String.eqb (f p) k) ks))%nat.
Proof.
  induction ks as [|k ks IH]; cbn [fold_right]; [reflexivity|].
  rewrite IH. cbn [filter]. destruct (String.eqb (f p) k); cbn [List.length]; lia.
Qed.

Lemma group_counts_total (f : Package -> string) (ps : list Package) :
  fold_right (fun k acc =>
                (List.length (filter (fun q => String.eqb (f q) k) ps) + acc)%nat)
             0%nat (nodup string_dec (map f ps))
  = List.length ps.
Proof.
  induction ps as [|p ps IH]; [reflexivity|].
  cbn [map nodup].
  destruct (in_dec string_dec (f p) (map f ps)) as [Hin|Hout].
  - rewrite group_counts_cons, IH, (count_of_key _ _ (NoDup_nodup _ _)).
    destruct (in_dec string_dec (f p) (nodup string_dec (map f ps))) as [Hy|Hn];
      [simpl; lia|].
    exfalso. apply Hn. apply nodup_In. exact Hin.
  - cbn [fold_right]. rewrite group_counts_cons, IH, (count_of_key _ _ (NoDup_nodup _ _)).
    destruct (in_dec string_dec (f p) (nodup string_dec (map f ps))) as [Hy|Hn];
      [exfalso; apply Hout; apply (nodup_In string_dec); exact Hy|].
    cbn [filter]. rewrite String.eqb_refl. cbn [List.length].
    replace (filter (fun q => String.eqb (f q) (f p)) ps) with (@nil Package);
      [simpl; lia|].
    symmetry. apply forallb_filter_nil. apply forallb_forall. intros q Hq.
    apply negb_true_iff, String.eqb_neq. intros E. apply Hout. rewrite <- E.
    apply in_map. exact Hq.
Qed.

(** X18.  The second table of the report has one row for each status that
    some package has, and none for another; no status comes twice, no
    count is zero, and the counts add up to the number of packages.
    This holds on every database. *)
Theorem by_status_complete :
  forall (db : DB),
    NoDup (map fst (r_by_status (get_summary_report db))) /\
    (forall s n, In (s, n) (r_by_status (get_summary_report db)) <->
                 (exists p, In p (Packages db) /\ p_status p = s)
                 /\ n = packages_with_status db s) /\
    (forall s n, In (s, n) (r_by_status (get_summary_report db)) -> (1 <= n)%nat) /\
    total_count (r_by_status (get_summary_report db)) = List.length (Packages db).
Proof.
  intros db. cbn [get_summary_report r_by_status]. unfold by_status.
  assert (Hiff : forall s n,
             In (s, n) (map (fun s => (s, packages_with_status db s))
                            (nodup string_dec (map p_status (Packages db)))) <->
             (exists p, In p (Packages db) /\ p_status p = s)
             /\ n = packages_with_status db s).
  { intros s n. rewrite in_map_iff. split.
    - intros [k [Hk Hin]]. injection Hk as <- <-.
      apply nodup_In, in_map_iff in Hin. destruct Hin as [p [Hp Hin]]. eauto.
    - intros [[p [Hin Hp]] ->]. exists s. split; [reflexivity|].
      apply nodup_In. rewrite <- Hp. apply in_map. exact Hin. }
  split; [|split; [exact Hiff|split]].
  - rewrite map_map. cbn [fst]. rewrite map_id. apply NoDup_nodup.
  - intros s n Hin. apply Hiff in Hin. destruct Hin as [[p [Hin Hp]] ->].
    unfold packages_with_status.
    assert (H : In p (filter (fun q => String.eqb (p_status q) s) (Packages db))).
    { apply filter_In. split; [exact Hin|]. apply String.eqb_eq. exact Hp. }
    destruct (filter _ (Packages db)); [destruct H|simpl; lia].
  - rewrite <- (group_counts_total p_status (Packages db)).
    unfold total_count, packages_with_status. clear Hiff.
    induction (nodup string_dec (map p_status (Packages db))) as [|k ks IH];
      [reflexivity|].
    simpl. rewrite IH. reflexivity.
Qed.

Lemma by_status_complete_witness :
  (1 <= packages_with_status terminal_db "InTransit")%nat.
Proof.
  apply (proj1 (proj2 (proj2 (by_status_complete terminal_db))) "InTransit").
  vm_compute. right. left. reflexivity.
Defined.

Lemma filter_and_le {A : Type} (f g : A -> bool) (l : list A) :
  (List.length (filter (fun x => f x && g x) l) <= List.length (filter g l))%nat.
Proof.
  induction l as [|x xs IH]; simpl; [lia|].
  destruct (f x), (g x); simpl; lia.
Qed.

Lemma filter_and_full {A : Type} (f g : A -> bool) (l : list A) :
  List.length (filter (fun x => f x && g x) l) = List.length (filter g l) <->
  (forall x, In x l -> g x = true -> f x = true).
Proof.
  induction l as [|x xs IH]; simpl; [tauto|].
  assert (Hle := filter_and_le f g xs).
  destruct (f x) eqn:Ef, (g x) eqn:Eg; simpl.
  - rewrite Nat.succ_inj_wd, IH. split.
    + intros H y [<-|Hy]; auto.
    + intros H y Hy. apply H. right. exact Hy.
  - rewrite IH. split.
    + intros H y [<-|Hy]; [congruence|auto].
    + intros H y Hy. apply H. right. exact Hy.
  - split; [lia|]. intros H. specialize (H x (or_introl eq_refl) Eg). congruence.
  - rewrite IH. split.
    + intros H y [<-|Hy]; [congruence|auto].
    + intros H y Hy. apply H. right. exact Hy.
Qed.

Lemma zones_static db :
  wf db -> map l_zone (Locations db) = map l_zone (Locations init_db).
Proof.
  intros Hwf. rewrite <- (wf_locations db Hwf), map_map. reflexivity.
Qed.

Lemma locations_in_zone_static db z :
  wf db -> locations_in_zone db z = locations_in_zone init_db z.
Proof.
  intros Hwf. unfold locations_in_zone.
  rewrite <- (wf_locations db Hwf).
  symmetry. apply (filter_static_length (fun l => String.eqb (l_zone l) z)). reflexivity.
Qed.

(** X19.  The third table of the report has the five zones A to E, in this
    order, each with its 20 locations, and as occupied the number of
    locations of the zone whose flag is set, which is at most 20. *)
Theorem location_occupancy_rows :
  forall (db : DB), reachable db ->
    r_location_occupancy (get_summary_report db)
    = map (fun z => (z, 20%nat, occupied_in_zone db z)) ["A"; "B"; "C"; "D"; "E"] /\
    (forall z total occupied,
        In (z, total, occupied) (r_location_occupancy (get_summary_report db)) ->
        (occupied <= total)%nat).
Proof.
  intros db Hr. apply reachable_wf in Hr. cbn [get_summary_report r_location_occupancy].
  assert (H : location_occupancy db
              = map (fun z => (z, 20%nat, occupied_in_zone db z)) ["A"; "B"; "C"; "D"; "E"]).
  { unfold location_occupancy. rewrite (zones_static db Hr).
    replace (nodup string_dec (map l_zone (Locations init_db)))
      with ["A"; "B"; "C"; "D"; "E"] by (vm_compute; reflexivity).
    cbn [map]. rewrite !(locations_in_zone_static db _ Hr). reflexivity. }
  split; [exact H|].
  intros z total occupied Hin. unfold location_occupancy in Hin.
  apply in_map_iff in Hin. destruct Hin as [k [Hk _]]. injection Hk as <- <- <-.
  unfold occupied_in_zone, locations_in_zone. apply filter_and_le.
Qed.

Lemma location_occupancy_rows_witness :
  r_location_occupancy (get_summary_report terminal_db)
  = [("A", 20%nat, 2%nat); ("B", 20%nat, 0%nat); ("C", 20%nat, 0%nat);
     ("D", 20%nat, 0%nat); ("E", 20%nat, 0%nat)].
Proof.
  exact (proj1 (location_occupancy_rows terminal_db (reachable_run _ _ reach_init))).
Defined.

(** ** Capacity *)

Lemma init_category_zone :
  forallb (fun c =>
             forallb (fun l => Bool.eqb (l_category_id l =? c_category_id c)
                                        (String.eqb (l_zone l) (c_zone c)))
                     (Locations init_db))
          (Categories init_db) = true.
Proof. vm_compute. reflexivity. Qed.

Lemma category_zone db cat loc :
  wf db -> In cat (Categories db) -> In loc (Locations db) ->
  (l_category_id loc = c_category_id cat <-> String.eqb (l_zone loc) (c_zone cat) = true).
Proof.
  intros Hwf Hc Hl. rewrite (wf_categories db Hwf) in Hc.
  apply (static_In db _ (wf_locations db Hwf)) in Hl.
  assert (H1 := proj1 (forallb_forall _ _) init_category_zone cat Hc). cbv beta in H1.
  assert (H2 := proj1 (forallb_forall _ _) H1 _ Hl). cbv beta in H2.
  apply Bool.eqb_prop in H2.
  change (l_category_id (loc_static loc)) with (l_category_id loc) in H2.
  change (l_zone (loc_static loc)) with (l_zone loc) in H2.
  rewrite <- H2. symmetry. apply Z.eqb_eq.
Qed.

Lemma init_zone_size :
  forallb (fun c => (locations_in_zone init_db (c_zone c) =? 20)%nat)
          (Categories init_db) = true.
Proof. vm_compute. reflexivity. Qed.

Lemma pool_exhausted_zone_full db cat :
  wf db -> In cat (Categories db) ->
  (pool_exhausted db (c_category_id cat) = true <->
   occupied_in_zone db (c_zone cat) = 20%nat).
Proof.
  intros Hwf Hc.
  assert (H20 : locations_in_zone db (c_zone cat) = 20%nat).
  { rewrite (locations_in_zone_static db _ Hwf). apply Nat.eqb_eq.
    rewrite (wf_categories db Hwf) in Hc.
    exact (proj1 (forallb_forall _ _) init_zone_size cat Hc). }
  rewrite pool_exhausted_spec. unfold occupied_in_zone.
  rewrite <- H20. unfold locations_in_zone.
  rewrite (filter_and_full l_is_occupied (fun l => String.eqb (l_zone l) (c_zone cat))).
  split; intros H loc Hin Hz; apply (H loc Hin);
    apply (category_zone db cat loc Hwf Hc Hin); exact Hz.
Qed.

(** X20.  A category has room for 20 packages.  While Delivered is
    terminal, a package with a new barcode is turned away for want of a
    location exactly when the zone of its category holds 20 packages
    that are not delivered. *)
Theorem pool_capacity :
  forall (db : DB), reachable_terminal db ->
  forall (cat : Category) (b : string) (w le wd h : float) (d p : string),
    In cat (Categories db) ->
    fst (categorize_package w p d) = c_category_id cat ->
    barcode_exists db b = false ->
    (fst (register_package db b w le wd h d p) = NoAvailableLocation <->
     undelivered_in_zone db (c_zone cat) = 20%nat) /\
    (undelivered_in_zone db (c_zone cat) <= 20)%nat.
Proof.
  intros db Hr cat b w le wd h d p Hc Hcat Hb.
  assert (Hcs := reachable_terminal_conserved db Hr).
  assert (Hwf := cs_wf db Hcs).
  rewrite <- (cs_count db Hcs).
  split.
  - rewrite <- (pool_exhausted_zone_full db cat Hwf Hc).
    rewrite (register_package_outcome_wf db b w le wd h d p Hwf), Hb, Hcat.
    destruct (pool_exhausted db (c_category_id cat)); [tauto|].
    destruct (nan_free w le wd h); split; discriminate.
  - assert (H20 : locations_in_zone db (c_zone cat) = 20%nat).
    { rewrite (locations_in_zone_static db _ Hwf). apply Nat.eqb_eq.
      rewrite (wf_categories db Hwf) in Hc.
      exact (proj1 (forallb_forall _ _) init_zone_size cat Hc). }
    rewrite <- H20. unfold occupied_in_zone, locations_in_zone. apply filter_and_le.
Qed.

Lemma pool_capacity_witness :
  fst (register_package standard_full_db "P21" 10.0 30.0 20.0 15.0 "Boston, USA" "Standard")
  = NoAvailableLocation.
Proof.
  assert (Hr : reachable_terminal standard_full_db).
  { apply reachable_terminal_run; [constructor|vm_compute; reflexivity]. }
  apply (proj1 (pool_capacity standard_full_db Hr
                  (mkCategory 1 "Standard" "Regular packages, standard delivery" "A" 30.0 3)
                  "P21" 10.0 30.0 20.0 15.0 "Boston, USA" "Standard"
                  ltac:(vm_compute; left; reflexivity) eq_refl
                  ltac:(vm_compute; reflexivity))).
  vm_compute. reflexivity.
Defined.

(** ** Lookups *)

(** X21.  On a reachable database [find_available_location] answers with
    the smallest id among the unoccupied locations of the category, an
    id that is not 0, and with nothing exactly when every location of
    the category is occupied. *)
Theorem find_available_location_lowest :
  forall (db : DB), reachable db ->
  forall (c : Z),
    match find_available_location db c with
    | Some l =>
      l <> 0 /\
      exists loc, In loc (Locations db) /\ l_location_id loc = l
                  /\ l_category_id loc = c /\ l_is_occupied loc = false
                  /\ forall loc', In loc' (Locations db) -> l_category_id loc' = c ->
                                  l_is_occupied loc' = false -> l <= l_location_id loc'
    | None =>
      forall loc, In loc (Locations db) -> l_category_id loc = c ->
                  l_is_occupied loc = true
    end.
Proof.
  intros db Hr c. apply reachable_wf in Hr. unfold find_available_location.
  destruct (find (is_free_in c) (Locations db)) as [loc|] eqn:Hf; simpl.
  - destruct (find_some _ _ Hf) as [Hin Hfree].
    apply is_free_in_true in Hfree. destruct Hfree as [Hc Ho].
    split; [apply (location_id_nonzero db Hr loc Hin)|].
    exists loc. repeat (split; [assumption || reflexivity|]).
    intros loc' Hin' Hc' Ho'.
    apply (find_first_lowest (is_free_in c) (Locations db) 1%nat 100%nat loc);
      try assumption.
    + rewrite (location_ids_static db Hr). apply init_location_ids.
    + apply is_free_in_true. auto.
  - apply pool_exhausted_spec. unfold pool_exhausted. apply forallb_forall.
    intros loc Hin. rewrite (find_none _ _ Hf loc Hin). reflexivity.
Qed.

Lemma find_available_location_lowest_witness :
  3 <> 0 /\
  exists loc, In loc (Locations terminal_db) /\ l_location_id loc = 3
              /\ l_category_id loc = 1 /\ l_is_occupied loc = false
              /\ forall loc', In loc' (Locations terminal_db) -> l_category_id loc' = 1 ->
                              l_is_occupied loc' = false -> 3 <= l_location_id loc'.
Proof.
  exact (find_available_location_lowest terminal_db (reachable_run _ _ reach_init) 1).
Defined.

Lemma first_row_unique db ps p v :
  NoDup (map p_barcode ps) -> In p ps -> joined db p = Some v ->
  first_row db (p_barcode p) ps = Some v.
Proof.
  induction ps as [|x xs IH]; intros Hnd Hin Hj; [destruct Hin|].
  simpl. destruct (String.eqb (p_barcode x) (p_barcode p)) eqn:E.
  - apply String.eqb_eq in E.
    assert (x = p) by (apply (barcode_unique (x :: xs)); simpl; auto).
    subst x. rewrite Hj. reflexivity.
  - inversion Hnd; subst. destruct Hin as [->|Hin].
    + rewrite String.eqb_refl in E. discriminate.
    + apply IH; assumption.
Qed.

(** X22.  On a reachable database the search by barcode finds every
    stored package, and nothing for any other barcode; what it answers
    is the row's id, barcode and status with the name of the row's
    category and the code of the row's location. *)
Theorem search_package_complete :
  forall (db : DB), reachable db ->
    (forall p, In p (Packages db) ->
       exists c loc,
         In c (Categories db) /\ c_category_id c = p_category_id p /\
         In loc (Locations db) /\ p_location_id p = Some (l_location_id loc) /\
         search_package db (p_barcode p)
         = Some (mkPackageView (p_package_id p) (p_barcode p) (p_status p)
                               (c_category_name c) (Some (l_location_code loc)))) /\
    (forall b, (forall p, In p (Packages db) -> p_barcode p <> b) ->
               search_package db b = None).
Proof.
  intros db Hr. apply reachable_wf in Hr. split.
  - intros p Hin.
    destruct (package_location db p Hr Hin) as [loc [Hl [Hid _]]].
    destruct (category_found _ (proj1 (wf_packages db Hr p Hin))) as [c Hc].
    destruct (find_some _ _ Hc) as [Hc1 Hc2]. apply Z.eqb_eq in Hc2.
    exists c, loc. rewrite (wf_categories db Hr).
    split; [exact Hc1|]. split; [exact Hc2|]. split; [exact Hl|]. split; [exact Hid|].
    unfold search_package. apply first_row_unique; [apply Hr|exact Hin|].
    unfold joined. rewrite (wf_categories db Hr), Hc, Hid. unfold location_code_of.
    rewrite (find_location_unique _ loc (location_ids_NoDup db Hr) Hl). reflexivity.
  - intros b Hb. apply first_row_absent. rewrite in_map_iff.
    intros [p [Hp Hin]]. exact (Hb p Hin Hp).
Qed.

Lemma search_package_complete_witness :
  exists c loc,
    In c (Categories terminal_db) /\ c_category_id c = 1 /\
    In loc (Locations terminal_db) /\ Some 1 = Some (l_location_id loc) /\
    search_package terminal_db "A"
    = Some (mkPackageView 1 "A" "Delivered" (c_category_name c)
                          (Some (l_location_code loc))).
Proof.
  apply (proj1 (search_package_complete terminal_db (reachable_run _ _ reach_init))
               (mkPackage 1 "A" 10.0 30.0 20.0 15.0 "Boston, USA" "Standard" 1 (Some 1)
                          "Delivered")).
  vm_compute. left. reflexivity.
Defined.
